(** * Yatube request handlers ([yatube/posts/views.py])

    A shallow embedding of the ten views of the posts application and
    of the parts of Django they call: the ORM tables and query sets,
    [get_object_or_404], model forms, [Paginator], [redirect] and
    [render].  A view is a computation over the database that either
    returns a response or raises; the dispatcher turns an uncaught
    exception into an error response. *)

From Stdlib Require Import ZArith Ascii String List Bool Lia Permutation.
Import ListNotations.
Local Open Scope string_scope.
Local Open Scope list_scope.
Local Open Scope Z_scope.

(** ** Data model *)

(** Modelled from the spec: the user model is Django's, reached through
    [posts/models.py]; an identity and a unique username. *)
Record User := mkUser {
  user_id : Z;
  username : string
}.

(** Modelled from the spec: [Group] of [posts/models.py]; title, slug
    and description. *)
Record Group := mkGroup {
  group_id : Z;
  group_slug : string;
  group_title : string;
  group_description : string
}.

(** The value of a file field on a model instance: the path of a file
    in the media storage, or an upload that the storage has not been
    given yet ([_committed] is [False]).  A path stands for its stored
    file. *)
Inductive FieldFile :=
| StoredFile (path : string)
| UploadedFile (name : string).

Coercion StoredFile : string >-> FieldFile.
(* [Some "posts/a.gif"] is read against the type it is to have, so
   that it can stand for [Some (StoredFile "posts/a.gif")] *)
#[local] Arguments Some {A} & a.

(** Modelled from the spec: [Post] of [posts/models.py]; text, creation
    timestamp, author, optional group and optional image.  The primary
    key and the author are [None] on an instance until they are set. *)
Record Post := mkPost {
  post_id : option Z;
  post_text : string;
  post_pub_date : Z;
  post_author : option Z;
  post_group : option Z;
  post_image : option FieldFile
}.

(** Modelled from the spec: [Comment] of [posts/models.py]; text,
    creation timestamp, the post and the author. *)
Record Comment := mkComment {
  comment_id : option Z;
  comment_post : option Z;
  comment_author : option Z;
  comment_text : string;
  comment_created : Z
}.

(** Modelled from the spec: [Follow] of [posts/models.py];
    [Follow(user, author)] says that [user] follows [author].  The
    views reach the rows of an author as [author.following] and those
    of a follower as [user.follower]. *)
Record Follow := mkFollow {
  follow_id : Z;
  follow_user : Z;
  follow_author : Z
}.

(** The relational store: one list of rows per table in insertion
    order, the next value of each primary-key sequence, and the
    clock read by the creation timestamps. *)
Record DB := mkDB {
  users : list User;
  groups : list Group;
  posts : list Post;
  comments : list Comment;
  follows : list Follow;
  next_post_id : Z;
  next_comment_id : Z;
  next_follow_id : Z;
  now : Z
}.

Definition set_posts (db : DB) (ps : list Post) (n : Z) : DB :=
  mkDB (users db) (groups db) ps (comments db) (follows db)
       n (next_comment_id db) (next_follow_id db) (now db).

Definition set_comments (db : DB) (cs : list Comment) (n : Z) : DB :=
  mkDB (users db) (groups db) (posts db) cs (follows db)
       (next_post_id db) n (next_follow_id db) (now db).

Definition set_follows (db : DB) (fs : list Follow) (n : Z) : DB :=
  mkDB (users db) (groups db) (posts db) (comments db) fs
       (next_post_id db) (next_comment_id db) n (now db).

Definition opt_eqb (o : option Z) (z : Z) : bool :=
  match o with
  | Some x => x =? z
  | None => false
  end.

(** ** Views as computations: database state and exceptions *)

Inductive Exn :=
| Http404
| DoesNotExist
| MultipleObjectsReturned
| IntegrityError
| EmptyPage
| PageNotAnInteger
| OverflowError.

Inductive Outcome (A : Type) :=
| Ok (a : A)
| Raise (e : Exn).
Arguments Ok {A} a.
Arguments Raise {A} e.

(** Without [ATOMIC_REQUESTS] the writes made before an exception
    stay, so the state is threaded through a raise as well. *)
Definition View (A : Type) : Type := DB -> Outcome A * DB.

Definition ret {A} (a : A) : View A := fun db => (Ok a, db).

Definition raise {A} (e : Exn) : View A := fun db => (Raise e, db).

Definition bind {A B} (m : View A) (k : A -> View B) : View B :=
  fun db =>
    match m db with
    | (Ok a, db') => k a db'
    | (Raise e, db') => (Raise e, db')
    end.

Definition lift {A} (o : Outcome A) : View A := fun db => (o, db).

Definition read {A} (f : DB -> A) : View A := fun db => (Ok (f db), db).

Declare Scope view_scope.
Delimit Scope view_scope with view.
Notation "x <- m ;; k" := (bind m (fun x => k))
  (at level 61, m at next level, right associativity) : view_scope.
Notation "m ;;; k" := (bind m (fun _ => k))
  (at level 61, right associativity) : view_scope.
Local Open Scope view_scope.

(** ** Query sets *)

(** [QuerySet.get()]: the single matching row. *)
Definition qs_get {A} (rows : list A) : Outcome A :=
  match rows with
  | [] => Raise DoesNotExist
  | [x] => Ok x
  | _ :: _ :: _ => Raise MultipleObjectsReturned
  end.

(** [get_object_or_404]: only [DoesNotExist] becomes [Http404]. *)
Definition get_object_or_404 {A} (rows : list A) : View A :=
  match qs_get rows with
  | Raise DoesNotExist => raise Http404
  | o => lift o
  end.

(** The keys an integer column of the database holds: 64 bits,
    signed *)
Definition db_integer (z : Z) : bool := (- 2 ^ 63 <=? z) && (z <? 2 ^ 63).

(** [get_object_or_404(Model, id=key)].  The key comes from the URL
    and can be any number; one that no integer column holds makes the
    query itself fail with [OverflowError], which is not caught.  A
    stored key is within the range, so this is the case of a key that
    names no row. *)
Definition get_by_id_or_404 {A} (key : Z) (rows : list A) : View A :=
  match qs_get rows with
  | Raise DoesNotExist =>
      if db_integer key then raise Http404 else raise OverflowError
  | o => lift o
  end.

Definition users_by_username (db : DB) (name : string) : list User :=
  filter (fun u => String.eqb (username u) name) (users db).

Definition groups_by_slug (db : DB) (slug : string) : list Group :=
  filter (fun g => String.eqb (group_slug g) slug) (groups db).

Definition posts_by_id (db : DB) (pid : Z) : list Post :=
  filter (fun p => opt_eqb (post_id p) pid) (posts db).

(** Modelled from the spec: the default ordering of [Post] lives in
    the [Meta] class of [posts/models.py]; the specification gives it as
    most recent first.  A stable insertion sort on the timestamp. *)
Fixpoint insert_by_date (p : Post) (l : list Post) : list Post :=
  match l with
  | [] => [p]
  | q :: l' =>
      if post_pub_date q <? post_pub_date p then p :: q :: l'
      else q :: insert_by_date p l'
  end.

Definition ordered (l : list Post) : list Post :=
  fold_right insert_by_date [] l.

(** [Post.objects.all()] *)
Definition all_posts (db : DB) : list Post := ordered (posts db).

(** [group.posts.all()] *)
Definition posts_of_group (db : DB) (g : Group) : list Post :=
  ordered (filter (fun p => opt_eqb (post_group p) (group_id g)) (posts db)).

(** [author.posts.select_related('group')] *)
Definition posts_of_author (db : DB) (a : User) : list Post :=
  ordered (filter (fun p => opt_eqb (post_author p) (user_id a)) (posts db)).

(** [Follow.objects.filter(user=..., author=...)] *)
Definition follows_of_pair (db : DB) (user author : Z) : list Follow :=
  filter (fun f => (follow_user f =? user) && (follow_author f =? author))
         (follows db).

(** [Post.objects.filter(author__following__user=user)]: the join of
    the posts with the [Follow] rows of their author, one result row
    per matching [Follow] row. *)
Definition posts_followed_by (db : DB) (u : User) : list Post :=
  flat_map
    (fun p =>
       map (fun _ => p)
           (filter (fun f => opt_eqb (post_author p) (follow_author f)
                             && (follow_user f =? user_id u))
                   (follows db)))
    (ordered (posts db)).

(** ** [django.core.paginator.Paginator] *)

Record Paginator := mkPaginator {
  object_list : list Post;
  per_page : Z;
  orphans : Z;
  allow_empty_first_page : bool
}.

Record Page := mkPage {
  page_object_list : list Post;
  page_number : Z;
  page_paginator : Paginator
}.

(** [Paginator(object_list, per_page)] with the default arguments *)
Definition new_Paginator (l : list Post) (n : Z) : Paginator :=
  mkPaginator l n 0 true.

Definition count (pg : Paginator) : Z := Z.of_nat (length (object_list pg)).

(** [ceil(a / b)] for a positive [b] *)
Definition ceil_div (a b : Z) : Z := - ((- a) / b).

Definition num_pages (pg : Paginator) : Z :=
  if (count pg =? 0) && negb (allow_empty_first_page pg) then 0
  else ceil_div (Z.max 1 (count pg - orphans pg)) (per_page pg).

(** [number] is the outcome of [int(number)]: [None] when the
    conversion raises ([TypeError] for an absent parameter,
    [ValueError] for a string that is no integer). *)
Definition validate_number (pg : Paginator) (number : option Z) : Outcome Z :=
  match number with
  | None => Raise PageNotAnInteger
  | Some n =>
      if n <? 1 then Raise EmptyPage
      else if num_pages pg <? n then Raise EmptyPage
      else Ok n
  end.

(** The slice [l[bottom:top]] for [0 <= bottom]. *)
Definition slice {A} (l : list A) (bottom top : Z) : list A :=
  firstn (Z.to_nat (top - bottom)) (skipn (Z.to_nat bottom) l).

Definition page (pg : Paginator) (number : option Z) : Outcome Page :=
  match validate_number pg number with
  | Raise e => Raise e
  | Ok n =>
      let bottom := (n - 1) * per_page pg in
      let top := bottom + per_page pg in
      let top := if count pg <=? top + orphans pg then count pg else top in
      Ok (mkPage (slice (object_list pg) bottom top) n pg)
  end.

Definition get_page (pg : Paginator) (number : option Z) : Outcome Page :=
  match validate_number pg number with
  | Ok n => page pg (Some n)
  | Raise PageNotAnInteger => page pg (Some 1)
  | Raise EmptyPage => page pg (Some (num_pages pg))
  | Raise e => Raise e
  end.

(** [len(page_obj)] *)
Definition page_len (p : Page) : Z := Z.of_nat (length (page_object_list p)).

(** ** Requests and responses *)

Definition QueryDict := list (string * string).

(** [request.FILES]: field name and name of the uploaded file *)
Definition Files := list (string * string).

Record Request := mkRequest {
  req_user : option User;      (* [None]: the anonymous user *)
  req_POST : QueryDict;
  req_FILES : Files;
  req_page : option Z          (* [int(request.GET.get('page'))] *)
}.

(** [x or None] on a dictionary: an empty one is falsy. *)
Definition or_None {A} (d : list A) : option (list A) :=
  match d with
  | [] => None
  | _ :: _ => Some d
  end.

Definition ErrorDict := list (string * list string).

Definition no_errors (e : ErrorDict) : bool :=
  match e with
  | [] => true
  | _ :: _ => false
  end.

(** The cleaned value of a file field: [None] (nothing to store),
    [False] (the clear box was ticked) or a file, which is an upload
    or the stored file the instance has. *)
Inductive FileValue :=
| NoFile
| ClearFile
| FileNamed (file : FieldFile).

Record PostCleaned := mkPostCleaned {
  cleaned_text : string;
  cleaned_group : option Z;
  cleaned_image : FileValue
}.

(** The fields of the two model forms are declared in
    [posts/forms.py], which this development does not embed: their
    cleaning is a parameter.  [post_form_clean db data files instance]
    and [comment_form_clean data] give the error dictionary and the
    cleaned data of a bound form.  So is the place of an upload in the
    media storage: [upload_to] of the image field is declared in
    [posts/models.py] and the storage may alter the name;
    [upload_name db name] is the path under which the storage keeps an
    upload called [name]. *)
Class Forms := {
  post_form_clean : DB -> QueryDict -> Files -> Post -> ErrorDict * PostCleaned;
  comment_form_clean : QueryDict -> ErrorDict * string;
  upload_name : DB -> string -> string
}.

Record PostForm := mkPostForm {
  pf_data : option QueryDict;
  pf_files : option Files;
  pf_instance : Post
}.

Record CommentForm := mkCommentForm {
  cf_data : option QueryDict;
  cf_instance : Comment
}.

(** [Post()] and [Comment()]: instances not yet saved *)
Definition blank_Post : Post := mkPost None "" 0 None None None.
Definition blank_Comment : Comment := mkComment None None None "" 0.

Definition from_option {A} (d : A) (o : option A) : A :=
  match o with
  | Some a => a
  | None => d
  end.

Definition new_PostForm (data : option QueryDict) (files : option Files)
    (instance : option Post) : PostForm :=
  mkPostForm data files (from_option blank_Post instance).

Definition new_CommentForm (data : option QueryDict) : CommentForm :=
  mkCommentForm data blank_Comment.

Definition is_some {A} (o : option A) : bool :=
  match o with
  | Some _ => true
  | None => false
  end.

(** [FileField.save_form_data] *)
Definition save_form_data (old : option FieldFile) (v : FileValue)
    : option FieldFile :=
  match v with
  | NoFile => old
  | ClearFile => None
  | FileNamed f => Some f
  end.

(** [construct_instance]: the cleaned fields written on the instance *)
Definition construct_instance (c : PostCleaned) (p : Post) : Post :=
  mkPost (post_id p) (cleaned_text c) (post_pub_date p) (post_author p)
         (cleaned_group c) (save_form_data (post_image p) (cleaned_image c)).

Definition with_author (p : Post) (a : option Z) : Post :=
  mkPost (post_id p) (post_text p) (post_pub_date p) a
         (post_group p) (post_image p).

Section Forms.

Context {F : Forms}.

Definition pf_is_bound (f : PostForm) : bool :=
  is_some (pf_data f) || is_some (pf_files f).

Definition pf_full_clean (db : DB) (f : PostForm) : ErrorDict * PostCleaned :=
  post_form_clean db (from_option [] (pf_data f)) (from_option [] (pf_files f))
                  (pf_instance f).

(** [form.errors]: empty for an unbound form *)
Definition pf_errors (db : DB) (f : PostForm) : ErrorDict :=
  if pf_is_bound f then fst (pf_full_clean db f) else [].

Definition pf_is_valid (db : DB) (f : PostForm) : bool :=
  pf_is_bound f && no_errors (pf_errors db f).

Definition pf_cleaned_data (db : DB) (f : PostForm) : PostCleaned :=
  snd (pf_full_clean db f).

(** [form.save(commit=False)] on a valid form: [form.instance], on
    which cleaning has written the cleaned fields. *)
Definition pf_cleaned_instance (db : DB) (f : PostForm) : Post :=
  construct_instance (pf_cleaned_data db f) (pf_instance f).

Definition cf_is_bound (f : CommentForm) : bool := is_some (cf_data f).

Definition cf_errors (f : CommentForm) : ErrorDict :=
  if cf_is_bound f then fst (comment_form_clean (from_option [] (cf_data f)))
  else [].

Definition cf_is_valid (f : CommentForm) : bool :=
  cf_is_bound f && no_errors (cf_errors f).

Definition cf_cleaned_instance (f : CommentForm) : Comment :=
  mkComment (comment_id (cf_instance f)) (comment_post (cf_instance f))
            (comment_author (cf_instance f))
            (snd (comment_form_clean (from_option [] (cf_data f))))
            (comment_created (cf_instance f)).

End Forms.

(** ** [Model.save] *)

Definition replace_post (i : Z) (p : Post) (l : list Post) : list Post :=
  map (fun q => if opt_eqb (post_id q) i then p else q) l.

Definition stamp_post (p : Post) (i : Z) (t : Z) : Post :=
  mkPost (Some i) (post_text p) t (post_author p) (post_group p) (post_image p).

(** An instance without a primary key is inserted under the next key
    of the sequence; one with a key updates its row, or is inserted
    when there is no such row.  The timestamp is written on insert.
    The author column is not nullable. *)
Definition write_post (p : Post) : View Post :=
  fun db =>
    match post_author p with
    | None => (Raise IntegrityError, db)
    | Some _ =>
        match post_id p with
        | None =>
            let p' := stamp_post p (next_post_id db) (now db) in
            (Ok p', set_posts db (posts db ++ [p']) (next_post_id db + 1))
        | Some i =>
            if existsb (fun q => opt_eqb (post_id q) i) (posts db)
            then (Ok p, set_posts db (replace_post i p (posts db)) (next_post_id db))
            else
              let p' := stamp_post p i (now db) in
              (Ok p', set_posts db (posts db ++ [p']) (next_post_id db))
        end
    end.

Definition with_image (p : Post) (image : option FieldFile) : Post :=
  mkPost (post_id p) (post_text p) (post_pub_date p) (post_author p)
         (post_group p) image.

(** [FileField.pre_save]: a file that is still an upload is handed to
    the storage, and the field takes the path the storage gives. *)
Definition stored_image {F : Forms} (db : DB) (image : option FieldFile)
    : option FieldFile :=
  match image with
  | Some (UploadedFile name) => Some (StoredFile (upload_name db name))
  | other => other
  end.

Definition pre_save_image {F : Forms} (db : DB) (p : Post) : Post :=
  with_image p (stored_image db (post_image p)).

(** [Model.save] of a post: the fields are prepared, then the row is
    written. *)
Definition save_post {F : Forms} (p : Post) : View Post :=
  fun db => write_post (pre_save_image db p) db.

Definition stamp_comment (c : Comment) (i : Z) (t : Z) : Comment :=
  mkComment (Some i) (comment_post c) (comment_author c) (comment_text c) t.

Definition save_comment (c : Comment) : View Comment :=
  fun db =>
    match comment_post c, comment_author c with
    | Some _, Some _ =>
        match comment_id c with
        | None =>
            let c' := stamp_comment c (next_comment_id db) (now db) in
            (Ok c', set_comments db (comments db ++ [c']) (next_comment_id db + 1))
        | Some i =>
            if existsb (fun q => opt_eqb (comment_id q) i) (comments db)
            then (Ok c,
                  set_comments db
                    (map (fun q => if opt_eqb (comment_id q) i then c else q)
                         (comments db))
                    (next_comment_id db))
            else
              let c' := stamp_comment c i (now db) in
              (Ok c', set_comments db (comments db ++ [c']) (next_comment_id db))
        end
    | _, _ => (Raise IntegrityError, db)
    end.

(** [Follow.objects.get_or_create(user=..., author=...)] *)
Definition follow_get_or_create (user author : Z) : View (Follow * bool) :=
  fun db =>
    match qs_get (follows_of_pair db user author) with
    | Ok f => (Ok (f, false), db)
    | Raise DoesNotExist =>
        let f := mkFollow (next_follow_id db) user author in
        (Ok (f, true), set_follows db (follows db ++ [f]) (next_follow_id db + 1))
    | Raise e => (Raise e, db)
    end.

(** The rows of
    [Follow.objects.filter(user=..., author__username=...)]:
    the join with the users table on the author. *)
Definition follows_user_of_named (db : DB) (user : Z) (name : string)
    (f : Follow) : bool :=
  (follow_user f =? user)
  && existsb (fun a => (user_id a =? follow_author f)
                       && String.eqb (username a) name)
             (users db).

(** [QuerySet.delete()] on that query set *)
Definition delete_follows (user : Z) (name : string) : View unit :=
  fun db =>
    (Ok tt,
     set_follows db
       (filter (fun f => negb (follows_user_of_named db user name f)) (follows db))
       (next_follow_id db)).

(** ** Responses *)

(** The named routes the views redirect to, with their arguments *)
Inductive Route :=
| posts_profile (name : string)
| posts_post_detail (pid : Z)
| login.

Inductive CtxValue :=
| VPage (p : Page)
| VGroup (g : Group)
| VUser (u : User)
| VPost (p : Post)
| VPosts (l : list Post)
| VCount (n : Z)
| VFollows (l : list Follow)
| VComments (l : list Comment)
| VPostForm (f : PostForm)
| VCommentForm (f : CommentForm)
| VBool (b : bool).

Definition Context := list (string * CtxValue).

Inductive Response :=
| Render (template : string) (context : Context)
| Redirect (to : Route)
| NotFound
| ServerError (e : Exn).

Definition status_code (r : Response) : Z :=
  match r with
  | Render _ _ => 200
  | Redirect _ => 302
  | NotFound => 404
  | ServerError _ => 500
  end.

(** The request cycle around a view: [Http404] becomes the not-found
    page, any other uncaught exception a server error. *)
Definition respond (v : View Response) (db : DB) : Response * DB :=
  match v db with
  | (Ok r, db') => (r, db')
  | (Raise Http404, db') => (NotFound, db')
  | (Raise e, db') => (ServerError e, db')
  end.

(** [@login_required]: the anonymous user is sent to the login page;
    otherwise [request.user] is a [User]. *)
Definition login_required (view : Request -> User -> View Response)
    (request : Request) : View Response :=
  match req_user request with
  | Some user => view request user
  | None => ret (Redirect login)
  end.

(** What [follower != following.follower] compares: a model instance
    with the reverse manager of the [Follow.user] relation. *)
Inductive PyObject :=
| ModelInstance (u : User)
| RelatedManager (related_name : string) (owner : User).

(** [Model.__eq__] answers for model instances only (equal primary
    keys); against anything else both sides decline and Python falls
    back on identity, so the two are unequal. *)
Definition user_ne (a : User) (b : PyObject) : bool :=
  match b with
  | ModelInstance u => negb (user_id a =? user_id u)
  | RelatedManager _ _ => true
  end.

(** ** The views *)

Section Views.

Context {F : Forms}.

Definition index (request : Request) : View Response :=
  posts_list <- read all_posts ;;
  let paginator := new_Paginator posts_list 10 in
  let page_number := req_page request in
  page_obj <- lift (get_page paginator page_number) ;;
  let context := [("page_obj", VPage page_obj)] in
  ret (Render "posts/index.html" context).

Definition group_posts (request : Request) (slug : string) : View Response :=
  group <- (fun db => get_object_or_404 (groups_by_slug db slug) db) ;;
  posts_list <- read (fun db => posts_of_group db group) ;;
  let paginator := new_Paginator posts_list 10 in
  let page_number := req_page request in
  page_obj <- lift (get_page paginator page_number) ;;
  let context := [("group", VGroup group); ("page_obj", VPage page_obj)] in
  ret (Render "posts/group_list.html" context).

Definition profile (request : Request) (name : string) : View Response :=
  author <- (fun db => get_object_or_404 (users_by_username db name) db) ;;
  post_list <- read (fun db => posts_of_author db author) ;;
  let count := Z.of_nat (length post_list) in
  following <- read (fun db =>
    match req_user request with
    | Some user => follows_of_pair db (user_id user) (user_id author)
    | None => []
    end) ;;
  let paginator := new_Paginator post_list 10 in
  let page_number := req_page request in
  page_obj <- lift (get_page paginator page_number) ;;
  let context := [("count", VCount count); ("author", VUser author);
                  ("post_list", VPosts post_list); ("page_obj", VPage page_obj);
                  ("following", VFollows following)] in
  ret (Render "posts/profile.html" context).

Definition post_detail (request : Request) (pid : Z) : View Response :=
  one_post <- (fun db => get_by_id_or_404 pid (posts_by_id db pid) db) ;;
  let form := new_CommentForm (or_None (req_POST request)) in
  (* no [order_by]: the rows come in the order the database gives,
     here the order of the table *)
  comment <- read (fun db =>
    filter (fun c => opt_eqb (comment_post c) pid) (comments db)) ;;
  let context := [("one_post", VPost one_post); ("form", VCommentForm form);
                  ("comment", VComments comment)] in
  ret (Render "posts/post_detail.html" context).

Definition post_create : Request -> View Response :=
  login_required (fun request user =>
    let form := new_PostForm (or_None (req_POST request))
                             (or_None (req_FILES request)) None in
    valid <- read (fun db => pf_is_valid db form) ;;
    if valid then
      post <- read (fun db => pf_cleaned_instance db form) ;;
      let post := with_author post (Some (user_id user)) in
      (* [form.save()] saves [form.instance], the object [post] names *)
      save_post post ;;;
      ret (Redirect (posts_profile (username user)))
    else
      let form := new_PostForm None None None in
      ret (Render "posts/create_post.html" [("form", VPostForm form)])).

Definition post_edit (request : Request) (pid : Z) : View Response :=
  login_required (fun request user =>
    object_post <- (fun db => get_by_id_or_404 pid (posts_by_id db pid) db) ;;
    (* [==] on model instances compares the primary keys *)
    if opt_eqb (post_author object_post) (user_id user) then
      let form := new_PostForm (or_None (req_POST request))
                               (or_None (req_FILES request))
                               (Some object_post) in
      let context := [("is_edit", VBool true); ("form", VPostForm form)] in
      valid <- read (fun db => pf_is_valid db form) ;;
      if valid then
        post <- read (fun db => pf_cleaned_instance db form) ;;
        save_post post ;;;
        ret (Redirect (posts_post_detail pid))
      else
        ret (Render "posts/create_post.html" context)
    else
      ret (Redirect (posts_post_detail pid))) request.

Definition add_comment (request : Request) (pid : Z) : View Response :=
  login_required (fun request user =>
    post <- (fun db => get_by_id_or_404 pid (posts_by_id db pid) db) ;;
    let form := new_CommentForm (or_None (req_POST request)) in
    (if cf_is_valid form then
       let comment := cf_cleaned_instance form in
       let comment := mkComment (comment_id comment) (post_id post)
                                (Some (user_id user)) (comment_text comment)
                                (comment_created comment) in
       save_comment comment ;;; ret tt
     else ret tt) ;;;
    ret (Redirect (posts_post_detail pid))) request.

Definition follow_index : Request -> View Response :=
  login_required (fun request user =>
    posts_list <- read (fun db => posts_followed_by db user) ;;
    let paginator := new_Paginator posts_list 10 in
    let page_number := req_page request in
    page_obj <- lift (get_page paginator page_number) ;;
    let context := [("page_obj", VPage page_obj)] in
    ret (Render "posts/follow.html" context)).

Definition profile_follow (request : Request) (name : string) : View Response :=
  login_required (fun request user =>
    following <- (fun db => get_object_or_404 (users_by_username db name) db) ;;
    let follower := user in
    (if user_ne follower (ModelInstance following)
        && user_ne follower (RelatedManager "follower" following)
     then follow_get_or_create (user_id follower) (user_id following) ;;; ret tt
     else ret tt) ;;;
    ret (Redirect (posts_profile name))) request.

Definition profile_unfollow (request : Request) (name : string) : View Response :=
  login_required (fun request user =>
    delete_follows (user_id user) name ;;;
    ret (Redirect (posts_profile name))) request.

End Views.

(** ** Reading a response *)

Fixpoint ctx_get (key : string) (context : Context) : option CtxValue :=
  match context with
  | [] => None
  | (k, v) :: rest => if String.eqb k key then Some v else ctx_get key rest
  end.

(** [len(response.context['page_obj'])] *)
Definition page_obj_len (r : Response) : option Z :=
  match r with
  | Render _ context =>
      match ctx_get "page_obj" context with
      | Some (VPage p) => Some (page_len p)
      | _ => None
      end
  | _ => None
  end.

(** The same request sent [n] times in a row *)
Fixpoint repeat_request (n : nat) (v : View Response) (db : DB)
    : list Response * DB :=
  match n with
  | O => ([], db)
  | S n' =>
      let (r, db') := respond v db in
      let (rs, db'') := repeat_request n' v db' in
      (r :: rs, db'')
  end.

(** ** A concrete pair of forms *)

Fixpoint dict_get (key : string) (d : list (string * string)) : option string :=
  match d with
  | [] => None
  | (k, v) :: rest => if String.eqb k key then Some v else dict_get key rest
  end.

Definition digit_of (c : ascii) : option Z :=
  let n := Z.of_nat (nat_of_ascii c) in
  if (48 <=? n) && (n <=? 57) then Some (n - 48) else None.

Fixpoint parse_digits (acc : Z) (s : string) : option Z :=
  match s with
  | EmptyString => Some acc
  | String c s' =>
      match digit_of c with
      | Some d => parse_digits (10 * acc + d) s'
      | None => None
      end
  end.

Definition required_error : ErrorDict -> string -> ErrorDict :=
  fun e field => (e ++ [(field, ["This field is required."])])%list.

(** Modelled from the spec: the fields of [PostForm] are declared in
    [posts/forms.py]; the specification gives them as text (required),
    group (optional, one of the stored groups) and image (optional).
    A file field left empty keeps the image of the instance, and the
    clear box empties it. *)
Definition spec_post_form_clean (db : DB) (data : QueryDict) (files : Files)
    (instance : Post) : ErrorDict * PostCleaned :=
  let text := from_option "" (dict_get "text" data) in
  let e1 := if String.eqb text "" then required_error [] "text" else [] in
  let '(e2, group) :=
    match dict_get "group" data with
    | None => (e1, None)
    | Some s =>
        if String.eqb s "" then (e1, None)
        else
          match parse_digits 0 s with
          | Some g =>
              if existsb (fun x => group_id x =? g) (groups db)
              then (e1, Some g)
              else ((e1 ++ [("group", ["Select a valid choice."])])%list, None)
          | None => ((e1 ++ [("group", ["Select a valid choice."])])%list, None)
          end
    end in
  let image :=
    match dict_get "image" files with
    | Some f => FileNamed (UploadedFile f)
    | None =>
        if is_some (dict_get "image-clear" data) then ClearFile
        else
          match post_image instance with
          | Some f => FileNamed f
          | None => NoFile
          end
    end in
  (e2, mkPostCleaned text group image).

(** Modelled from the spec: [CommentForm] of [posts/forms.py] has the
    one field text, which is required. *)
Definition spec_comment_form_clean (data : QueryDict) : ErrorDict * string :=
  let text := from_option "" (dict_get "text" data) in
  (if String.eqb text "" then required_error [] "text" else [], text).

(** A storage that keeps every upload under [posts/], with its own
    name *)
Definition spec_upload_name (db : DB) (name : string) : string :=
  String.append "posts/" name.

Definition spec_forms : Forms :=
  {| post_form_clean := spec_post_form_clean;
     comment_form_clean := spec_comment_form_clean;
     upload_name := spec_upload_name |}.

(** ** Sample data: the fixtures of the test suite *)

Definition author_user : User := mkUser 1 "author".
Definition test_user : User := mkUser 2 "test_user".
Definition test_group : Group :=
  mkGroup 1 "test-slug" "Test-group" "test-description".

(** [Post(author=..., group=..., text=...)] for [i] in [range(n)],
    as [bulk_create] stores them *)
Definition bulk_posts (a : User) (g : Group) (n : nat) : list Post :=
  map (fun i => mkPost (Some (Z.of_nat i + 1)) "Test-text" (Z.of_nat i)
                       (Some (user_id a)) (Some (group_id g)) None)
      (seq 0 n).

(** The database of [PaginatorTest], with [test_user] following the
    author of the thirteen posts *)
Definition paginator_db : DB :=
  mkDB [author_user; test_user] [test_group]
       (bulk_posts author_user test_group 13) []
       [mkFollow 1 (user_id test_user) (user_id author_user)]
       14 1 2 100.

(** The database of [PostViewTest]: one post of [test_user], with an
    image *)
Definition view_db : DB :=
  mkDB [author_user; test_user] [test_group]
       [mkPost (Some 1) "old text" 5 (Some (user_id test_user))
               (Some (group_id test_group)) (Some "posts/small.gif")]
       [] [] 2 1 1 100.

Definition get_request (u : User) (page : option Z) : Request :=
  mkRequest (Some u) [] [] page.

Definition post_request (u : User) (data : QueryDict) (files : Files) : Request :=
  mkRequest (Some u) data files None.

(** Requests of the test suite *)
Definition invalid_create_request : Request :=
  post_request test_user [("text", ""); ("group", "1")] [].

Definition valid_create_request : Request :=
  post_request test_user [("text", "Test text"); ("group", "1")] [].

Definition edit_request : Request :=
  post_request test_user [("text", "Edited text")] [].

Definition image_edit_request : Request :=
  post_request test_user [("text", "Edited text")] [("image", "new.gif")].

Definition foreign_edit_request : Request :=
  post_request author_user [("text", "Edited text")] [].

Definition comment_request : Request :=
  post_request test_user [("text", "test comment")] [].

Definition anonymous_request : Request :=
  mkRequest None [("text", "Test text")] [] (Some 2).

Definition invalid_edit_request : Request :=
  post_request test_user [("text", "")] [].

Definition author_create_request : Request :=
  post_request author_user [("text", "By the author")] [].

(** ** Reading the outcome of a request *)

(** The response renders a page of [k] items and the database is
    as it was. *)
Definition serves_items (out : Response * DB) (db : DB) (k : Z) : Prop :=
  page_obj_len (fst out) = Some k /\ snd out = db.

(** ** Routing and runs of requests *)

(** Modelled from the spec: the routes are declared in [posts/urls.py];
    the specification lists one route per view. *)
Inductive Url :=
| url_index
| url_group_list (slug : string)
| url_profile (name : string)
| url_post_detail (pid : Z)
| url_post_create
| url_post_edit (pid : Z)
| url_add_comment (pid : Z)
| url_follow_index
| url_profile_follow (name : string)
| url_profile_unfollow (name : string).

Definition resolve {F : Forms} (u : Url) (request : Request) : View Response :=
  match u with
  | url_index => index request
  | url_group_list slug => group_posts request slug
  | url_profile name => profile request name
  | url_post_detail pid => post_detail request pid
  | url_post_create => post_create request
  | url_post_edit pid => post_edit request pid
  | url_add_comment pid => add_comment request pid
  | url_follow_index => follow_index request
  | url_profile_follow name => profile_follow request name
  | url_profile_unfollow name => profile_unfollow request name
  end.

(** The database after a sequence of requests *)
Fixpoint serve_all {F : Forms} (rs : list (Url * Request)) (db : DB) : DB :=
  match rs with
  | [] => db
  | (u, request) :: rest => serve_all rest (snd (respond (resolve u request) db))
  end.

(** No pair (follower, author) has more than one [Follow] row. *)
Definition follows_unique (db : DB) : Prop :=
  forall user author, (length (follows_of_pair db user author) <= 1)%nat.

(** A computation that leaves the [Follow] table as it finds it *)
Definition keeps_follows {A} (v : View A) : Prop :=
  forall db, follows (snd (v db)) = follows db.

(** A run of requests, all of them sent by [author] *)
Definition author_run : list (Url * Request) :=
  [(url_post_edit 1, foreign_edit_request);
   (url_post_create, author_create_request);
   (url_profile_follow "author", get_request author_user None);
   (url_profile_follow "test_user", get_request author_user None);
   (url_profile_follow "test_user", get_request author_user None);
   (url_add_comment 1, post_request author_user [("text", "seen")] []);
   (url_profile_unfollow "nobody", get_request author_user None)].

(** ** Reading more of a response *)

(** [list(response.context['page_obj'])] *)
Definition page_obj_items (r : Response) : option (list Post) :=
  match r with
  | Render _ context =>
      match ctx_get "page_obj" context with
      | Some (VPage p) => Some (page_object_list p)
      | _ => None
      end
  | _ => None
  end.

(** [response.context] *)
Definition context_of (r : Response) : Context :=
  match r with
  | Render _ context => context
  | _ => []
  end.

(** The posts an anonymous visitor gets on page [p] of the index *)
Definition index_items (db : DB) (p : Z) : list Post :=
  from_option []
    (page_obj_items (fst (respond (index (mkRequest None [] [] (Some p))) db))).

(** Pages [1] to [k] of the index, one after the other *)
Definition index_pages (db : DB) (k : nat) : list Post :=
  flat_map (fun i => index_items db (Z.of_nat i + 1)) (seq 0 k).

(** The page [get_page] serves for the number [n] of an existing
    page *)
Definition page_of (l : list Post) (n : Z) : Page :=
  mkPage (slice l ((n - 1) * 10)
                (if Z.of_nat (length l) <=? (n - 1) * 10 + 10 + 0
                 then Z.of_nat (length l) else (n - 1) * 10 + 10))
         n (new_Paginator l 10).

(** The response renders a page of the paginator: between no and ten
    items, at least one when there is anything to list, under a page
    number that exists; and the database is as it was. *)
Definition serves_a_page (out : Response * DB) (db : DB) : Prop :=
  snd out = db
  /\ exists t context pg,
       fst out = Render t context
       /\ ctx_get "page_obj" context = Some (VPage pg)
       /\ 0 <= page_len pg <= 10
       /\ 1 <= page_number pg <= num_pages (page_paginator pg)
       /\ (object_list (page_paginator pg) <> [] -> 1 <= page_len pg).

(** ** Invariants and frames *)

(** No [Follow] row pairs a user with that same user. *)
Definition no_self_follow (db : DB) : Prop :=
  forall f, In f (follows db) -> follow_user f <> follow_author f.

Definition authored_by (a : Z) (q : Post) : bool := opt_eqb (post_author q) a.

(** None of the requests comes from the user with the key [a]. *)
Definition sent_by_others (a : Z) (rs : list (Url * Request)) : Prop :=
  Forall (fun r => match req_user (snd r) with
                   | Some u => user_id u <> a
                   | None => True
                   end) rs.

(** The image of every stored post is a file of the storage, not an
    upload. *)
Definition images_stored (db : DB) : Prop :=
  forall q name, In q (posts db) -> post_image q <> Some (UploadedFile name).

(** The stored posts have pairwise different keys, all of them below
    the next key of the sequence. *)
Definition posts_keyed (db : DB) : Prop :=
  NoDup (map post_id (posts db))
  /\ forall q, In q (posts db) ->
               exists i, post_id q = Some i /\ i < next_post_id db.

(** A computation that leaves one part of the database as it finds
    it *)
Definition keeps {A B} (field : DB -> B) (v : View A) : Prop :=
  forall db, field (snd (v db)) = field db.

(** ** Proof steps shared by the views *)

(** Unfolds a view down to its database reads and its paginator. *)
Ltac run_view :=
  unfold respond, login_required, bind, read, lift, ret, raise, get_object_or_404,
    get_by_id_or_404;
  cbn beta iota.

(** Cases on whether the key of a lookup is a database integer. *)
Ltac split_range :=
  try match goal with
      | |- context [db_integer ?key] => destruct (db_integer key)
      end.

(** Settles a listing view once its query is exposed; [len] is the
    lemma on the length of a served page, [ord] the one on the length
    of an ordered query set. *)
Ltac serve_page len ord Hp Hq :=
  match goal with
  | |- context [get_page (new_Paginator ?l 10) (Some ?p)] =>
      let pg := fresh "pg" in
      let E := fresh "E" in
      let Hlen := fresh "Hlen" in
      destruct (len l p Hp) as (pg & E & _ & Hlen);
      [ rewrite ?ord; exact Hq
      | rewrite E; split; [|reflexivity];
        transitivity (Some (page_len pg));
        [ reflexivity | rewrite Hlen, ?ord; reflexivity ] ]
  end.

(** * Properties *)

(** ** Pagination *)

Lemma length_insert_by_date (p : Post) (l : list Post) :
  length (insert_by_date p l) = S (length l).
Proof.
  induction l as [|q l IH]; simpl; [reflexivity|].
  destruct (post_pub_date q <? post_pub_date p); simpl; [reflexivity|].
  now rewrite IH.
Qed.

Lemma length_ordered (l : list Post) : length (ordered l) = length l.
Proof.
  induction l as [|p l IH]; simpl; [reflexivity|].
  now rewrite length_insert_by_date, IH.
Qed.

Lemma length_slice {A} (l : list A) (bottom top : Z) :
  0 <= bottom <= top -> top <= Z.of_nat (length l) ->
  Z.of_nat (length (slice l bottom top)) = top - bottom.
Proof.
  intros Hb Ht. unfold slice.
  rewrite length_firstn, length_skipn. lia.
Qed.

Lemma ceil_div_10_bounds (a : Z) :
  a <= 10 * ceil_div a 10 < a + 10.
Proof.
  unfold ceil_div.
  pose proof (Z.div_mod (- a) 10 ltac:(lia)) as E.
  pose proof (Z.mod_pos_bound (- a) 10 ltac:(lia)) as B.
  lia.
Qed.

Lemma num_pages_10 (l : list Post) :
  num_pages (new_Paginator l 10) = ceil_div (Z.max 1 (Z.of_nat (length l))) 10.
Proof.
  unfold num_pages, new_Paginator, count; simpl.
  rewrite andb_false_r. now rewrite Z.sub_0_r.
Qed.

(** A page number from [1] up to the last page is served as asked,
    with ten items or, on the last page, what is left. *)
Lemma get_page_len (l : list Post) (p : Z) :
  1 <= p -> 0 < Z.of_nat (length l) - 10 * (p - 1) ->
  exists pg,
    get_page (new_Paginator l 10) (Some p) = Ok pg
    /\ page_number pg = p
    /\ page_len pg = Z.min 10 (Z.of_nat (length l) - 10 * (p - 1)).
Proof.
  intros Hp Hq.
  set (n := Z.of_nat (length l)) in *.
  assert (Hv : validate_number (new_Paginator l 10) (Some p) = Ok p).
  { unfold validate_number. rewrite num_pages_10. fold n.
    pose proof (ceil_div_10_bounds (Z.max 1 n)).
    destruct (Z.ltb_spec p 1); [lia|].
    destruct (Z.ltb_spec (ceil_div (Z.max 1 n) 10) p); [lia|reflexivity]. }
  unfold get_page. rewrite Hv. unfold page. rewrite Hv.
  eexists; split; [reflexivity|]. split; [reflexivity|].
  unfold page_len, count, new_Paginator.
  cbn [page_object_list object_list per_page orphans]. fold n.
  rewrite Z.add_0_r.
  destruct (Z.leb_spec n ((p - 1) * 10 + 10)).
  - rewrite length_slice by (fold n; lia). lia.
  - rewrite length_slice by (fold n; lia). lia.
Qed.

(** C5. On each listing route (index, group listing, profile, follow
    feed), over a filtered sequence of [n] posts, the page served for
    the page number [p] (numbered from 1) holds exactly
    [min 10 (n - 10 * (p - 1))] items whenever that quantity is
    positive, and nothing is written; thirteen posts give ten items on
    page 1 and three on page 2. *)
Theorem listing_page_size (db : DB) (request : Request) (p : Z) :
  req_page request = Some p ->
  1 <= p ->
  (forall n,
      n = Z.of_nat (length (posts db)) -> 0 < n - 10 * (p - 1) ->
      serves_items (respond (index request) db) db
                   (Z.min 10 (n - 10 * (p - 1))))
  /\ (forall slug group n,
        groups_by_slug db slug = [group] ->
        n = Z.of_nat (length (filter (fun q => opt_eqb (post_group q) (group_id group))
                                     (posts db))) ->
        0 < n - 10 * (p - 1) ->
        serves_items (respond (group_posts request slug) db) db
                     (Z.min 10 (n - 10 * (p - 1))))
  /\ (forall name author n,
        users_by_username db name = [author] ->
        n = Z.of_nat (length (filter (fun q => opt_eqb (post_author q) (user_id author))
                                     (posts db))) ->
        0 < n - 10 * (p - 1) ->
        serves_items (respond (profile request name) db) db
                     (Z.min 10 (n - 10 * (p - 1))))
  /\ (forall user n,
        req_user request = Some user ->
        n = Z.of_nat (length (posts_followed_by db user)) ->
        0 < n - 10 * (p - 1) ->
        serves_items (respond (follow_index request) db) db
                     (Z.min 10 (n - 10 * (p - 1))))
  /\ (forall l : list Post,
        length l = 13%nat ->
        exists p1 p2,
          get_page (new_Paginator l 10) (Some 1) = Ok p1 /\ page_len p1 = 10
          /\ get_page (new_Paginator l 10) (Some 2) = Ok p2 /\ page_len p2 = 3).
Proof.
  intros Hpage Hp. split; [|split; [|split; [|split]]].
  - intros n -> Hq. unfold index. run_view. rewrite Hpage.
    unfold all_posts. serve_page get_page_len length_ordered Hp Hq.
  - intros slug group n Hg -> Hq. unfold group_posts. run_view.
    rewrite Hg, Hpage. cbn [qs_get]. run_view. unfold posts_of_group.
    serve_page get_page_len length_ordered Hp Hq.
  - intros name author n Ha -> Hq. unfold profile. run_view.
    rewrite Ha, Hpage. cbn [qs_get]. run_view. unfold posts_of_author.
    serve_page get_page_len length_ordered Hp Hq.
  - intros user n Hu -> Hq. unfold follow_index. run_view.
    rewrite Hu, Hpage. serve_page get_page_len length_ordered Hp Hq.
  - intros l Hl.
    destruct (get_page_len l 1) as (p1 & E1 & _ & L1); [lia | lia |].
    destruct (get_page_len l 2) as (p2 & E2 & _ & L2); [lia | lia |].
    exists p1, p2. rewrite E1, E2, L1, L2, Hl. repeat split.
Qed.

(** A page number below 1 raises [EmptyPage] inside [get_page], which
    then serves the last page: [?page=0] over the thirteen posts shows
    the three posts of page 2. *)
Example page_zero_is_last_page :
  page_obj_len (fst (respond (index (get_request test_user (Some 0))) paginator_db))
  = Some 3.
Proof. reflexivity. Qed.

(** ** Rows and their primary keys *)

Lemma set_follows_same (db : DB) :
  set_follows db (follows db) (next_follow_id db) = db.
Proof. now destruct db. Qed.

Lemma existsb_of_filter {A} (f : A -> bool) (l : list A) (x : A) :
  filter f l = [x] -> existsb f l = true.
Proof.
  intros E. apply existsb_exists. exists x.
  assert (In x (filter f l)) as H by (rewrite E; now left).
  now apply filter_In in H.
Qed.

Lemma filter_replace_post (i : Z) (p : Post) (l : list Post) :
  post_id p = Some i ->
  filter (fun q => opt_eqb (post_id q) i) (replace_post i p l)
  = map (fun _ => p) (filter (fun q => opt_eqb (post_id q) i) l).
Proof.
  intros Hp. induction l as [|q l IH]; [reflexivity|].
  cbn [replace_post map filter].
  destruct (opt_eqb (post_id q) i) eqn:E.
  - rewrite Hp. cbn [opt_eqb]. rewrite Z.eqb_refl. cbn [map]. f_equal. exact IH.
  - rewrite E. exact IH.
Qed.

Lemma filter_replace_post_other (i j : Z) (p : Post) (l : list Post) :
  post_id p = Some i -> j <> i ->
  filter (fun q => opt_eqb (post_id q) j) (replace_post i p l)
  = filter (fun q => opt_eqb (post_id q) j) l.
Proof.
  intros Hp Hj. induction l as [|q l IH]; [reflexivity|].
  cbn [replace_post map filter].
  destruct (opt_eqb (post_id q) i) eqn:E.
  - rewrite Hp. cbn [opt_eqb].
    destruct (Z.eqb_spec i j) as [->|_]; [contradiction|].
    destruct (post_id q) as [k|]; cbn [opt_eqb] in E |- *; [|exact IH].
    apply Z.eqb_eq in E. subst k.
    destruct (Z.eqb_spec i j) as [->|_]; [contradiction|exact IH].
  - destruct (opt_eqb (post_id q) j); [f_equal|]; exact IH.
Qed.

Lemma post_id_of_filter (db : DB) (pid : Z) (post : Post) :
  posts_by_id db pid = [post] -> post_id post = Some pid.
Proof.
  intros E.
  assert (In post (posts_by_id db pid)) as H by (rewrite E; now left).
  apply filter_In in H. destruct H as [_ H].
  destruct (post_id post) as [k|]; cbn in H; [|discriminate].
  apply Z.eqb_eq in H. now subst.
Qed.

(** ** Creating and editing posts *)

Section PostViews.

Context {F : Forms}.

(** C10. A request without form data, from an authenticated user, to
    the creation route or to the edit route of one of the user's own
    posts builds an unbound form, which is not valid: the view renders
    the form page and the database is as it was. *)
Theorem get_renders_form_only (db : DB) (request : Request) (user : User) :
  req_user request = Some user ->
  req_POST request = [] ->
  req_FILES request = [] ->
  respond (post_create request) db
  = (Render "posts/create_post.html"
            [("form", VPostForm (new_PostForm None None None))], db)
  /\ forall pid post,
      posts_by_id db pid = [post] ->
      post_author post = Some (user_id user) ->
      pf_is_valid db (new_PostForm None None (Some post)) = false
      /\ respond (post_edit request pid) db
         = (Render "posts/create_post.html"
                   [("is_edit", VBool true);
                    ("form", VPostForm (new_PostForm None None (Some post)))], db).
Proof.
  intros Hu HP HF. split.
  - unfold post_create. run_view. rewrite Hu, HP, HF. reflexivity.
  - intros pid post Hpost Hauth. split; [reflexivity|].
    unfold post_edit. run_view. rewrite Hu, Hpost, HP, HF. cbn [qs_get].
    run_view. rewrite Hauth. cbn [opt_eqb]. rewrite Z.eqb_refl. reflexivity.
Qed.

(** C1, as the code has it.  When the submitted form is not valid,
    [post_create] answers with the creation page, does not redirect and
    writes nothing; but the form it renders is a fresh unbound
    [PostForm()], whose error dictionary is empty: the errors of the
    submitted data are dropped. *)
Theorem post_create_invalid (db : DB) (request : Request) (user : User) :
  req_user request = Some user ->
  pf_is_valid db (new_PostForm (or_None (req_POST request))
                               (or_None (req_FILES request)) None) = false ->
  respond (post_create request) db
  = (Render "posts/create_post.html"
            [("form", VPostForm (new_PostForm None None None))], db)
  /\ pf_errors db (new_PostForm None None None) = []
  /\ pf_is_bound (new_PostForm None None None) = false.
Proof.
  intros Hu Hv. split; [|split; reflexivity].
  unfold post_create. run_view. rewrite Hu, Hv. reflexivity.
Qed.

(** C6. A valid submission of the creation form by an authenticated
    user stores exactly one new post, appended to the table under the
    next primary key, whose author is the requesting user and whose
    fields are the cleaned ones; the number of posts grows by one and
    the answer is a redirect to the profile of that user. *)
Theorem post_create_valid (db : DB) (request : Request) (user : User) :
  req_user request = Some user ->
  let form := new_PostForm (or_None (req_POST request))
                           (or_None (req_FILES request)) None in
  pf_is_valid db form = true ->
  exists post db',
    respond (post_create request) db
    = (Redirect (posts_profile (username user)), db')
    /\ posts db' = posts db ++ [post]
    /\ post_author post = Some (user_id user)
    /\ post_id post = Some (next_post_id db)
    /\ post_text post = cleaned_text (pf_cleaned_data db form)
    /\ post_group post = cleaned_group (pf_cleaned_data db form)
    /\ Z.of_nat (length (posts db')) = Z.of_nat (length (posts db)) + 1
    /\ users db' = users db /\ groups db' = groups db
    /\ comments db' = comments db /\ follows db' = follows db.
Proof.
  intros Hu form Hv.
  unfold post_create. run_view. rewrite Hu. fold form. rewrite Hv.
  unfold save_post. cbn [with_author post_author post_id pf_cleaned_instance
                         construct_instance form new_PostForm pf_instance
                         from_option blank_Post].
  eexists _, _. split; [reflexivity|].
  cbn [posts set_posts users groups comments follows stamp_post
       post_author post_id post_text post_group].
  rewrite length_app. cbn [length].
  repeat split; lia.
Qed.

(** C3. An authenticated user who is not the author of an existing
    post and asks for its edit route is redirected to the detail page
    of the post, with the status of any redirect (302, the one a
    successful edit gets), and the database is as it was. *)
Theorem post_edit_not_author (db : DB) (request : Request) (user : User)
    (pid : Z) (post : Post) :
  req_user request = Some user ->
  posts_by_id db pid = [post] ->
  post_author post <> Some (user_id user) ->
  respond (post_edit request pid) db = (Redirect (posts_post_detail pid), db)
  /\ status_code (fst (respond (post_edit request pid) db)) = 302
  /\ posts (snd (respond (post_edit request pid) db)) = posts db.
Proof.
  intros Hu Hpost Hauth.
  assert (E : respond (post_edit request pid) db
              = (Redirect (posts_post_detail pid), db)).
  { unfold post_edit. run_view. rewrite Hu, Hpost. cbn [qs_get]. run_view.
    destruct (post_author post) as [a|]; cbn [opt_eqb]; [|reflexivity].
    destruct (Z.eqb_spec a (user_id user)) as [->|_]; [|reflexivity].
    now contradiction Hauth. }
  rewrite E. repeat split.
Qed.

(** C4. When the author of an existing post submits a valid edit, the
    stored row of the post takes the text and the group of the
    submission and its image: the uploaded file, at the path under
    which the storage keeps it; the stored file the form hands back;
    none when the image is cleared; and the image the row had (a
    stored file) when the submission carries no image value.  Its
    author, its timestamp and its key stay; every other row and table
    is untouched and the answer is a redirect to the detail page. *)
Theorem post_edit_by_author (db : DB) (request : Request) (user : User)
    (pid : Z) (post : Post) :
  req_user request = Some user ->
  posts_by_id db pid = [post] ->
  post_author post = Some (user_id user) ->
  let form := new_PostForm (or_None (req_POST request))
                           (or_None (req_FILES request)) (Some post) in
  pf_is_valid db form = true ->
  let submitted := pf_cleaned_data db form in
  exists post' db',
    respond (post_edit request pid) db = (Redirect (posts_post_detail pid), db')
    /\ posts_by_id db' pid = [post']
    /\ post_text post' = cleaned_text submitted
    /\ post_group post' = cleaned_group submitted
    /\ match cleaned_image submitted with
       | FileNamed (UploadedFile name) =>
           post_image post' = Some (StoredFile (upload_name db name))
       | FileNamed (StoredFile path) => post_image post' = Some (StoredFile path)
       | ClearFile => post_image post' = None
       | NoFile =>
           (forall name, post_image post <> Some (UploadedFile name)) ->
           post_image post' = post_image post
       end
    /\ post_author post' = post_author post
    /\ post_pub_date post' = post_pub_date post
    /\ post_id post' = post_id post
    /\ (forall i, i <> pid -> posts_by_id db' i = posts_by_id db i)
    /\ length (posts db') = length (posts db)
    /\ users db' = users db /\ groups db' = groups db
    /\ comments db' = comments db /\ follows db' = follows db.
Proof.
  intros Hu Hpost Hauth form Hv submitted.
  pose proof (post_id_of_filter db pid post Hpost) as Hid.
  unfold post_edit. run_view. rewrite Hu, Hpost. cbn [qs_get]. run_view.
  rewrite Hauth. cbn [opt_eqb]. rewrite Z.eqb_refl. fold form. rewrite Hv.
  unfold save_post, write_post.
  cbn [pre_save_image with_image pf_cleaned_instance construct_instance
       post_author post_id form new_PostForm pf_instance from_option].
  rewrite Hauth, Hid.
  rewrite (existsb_of_filter _ _ _ Hpost).
  exists (pre_save_image db (construct_instance submitted post)).
  eexists. split; [reflexivity|].
  unfold posts_by_id, pre_save_image, with_image, construct_instance.
  cbn [posts set_posts users groups comments follows
       post_text post_group post_image post_author post_pub_date post_id].
  split.
  { rewrite filter_replace_post by exact Hid.
    unfold posts_by_id in Hpost. rewrite Hpost. reflexivity. }
  repeat split; auto.
  - destruct (cleaned_image submitted) as [| |[path|name]];
      cbn [save_form_data stored_image]; try reflexivity.
    intros Hstored. destruct (post_image post) as [[path|name]|];
      try reflexivity.
    now contradiction (Hstored name).
  - intros i Hi. now apply filter_replace_post_other.
  - unfold replace_post. now rewrite length_map.
Qed.

(** X19. The sibling path: on an invalid submission by the author,
    [post_edit] renders the bound form itself in edit mode, so the
    page carries the errors of the submitted data, and nothing is
    written. *)
Lemma post_edit_invalid_keeps_errors (db : DB) (request : Request) (user : User)
    (pid : Z) (post : Post) :
  req_user request = Some user ->
  posts_by_id db pid = [post] ->
  post_author post = Some (user_id user) ->
  let form := new_PostForm (or_None (req_POST request))
                           (or_None (req_FILES request)) (Some post) in
  pf_is_valid db form = false ->
  respond (post_edit request pid) db
  = (Render "posts/create_post.html"
            [("is_edit", VBool true); ("form", VPostForm form)], db).
Proof.
  intros Hu Hpost Hauth form Hv.
  unfold post_edit. run_view. rewrite Hu, Hpost. cbn [qs_get]. run_view.
  rewrite Hauth. cbn [opt_eqb]. rewrite Z.eqb_refl. fold form. rewrite Hv.
  reflexivity.
Qed.

End PostViews.

(** ** Comments *)

Section CommentViews.

Context {F : Forms}.

(** C2. For an authenticated user and an existing post, [add_comment]
    answers with a redirect to the detail page of the post whether or
    not the form is valid.  A valid form first stores exactly one
    comment, on that post and by that user; an invalid one stores
    nothing, and the redirect carries no error. *)
Theorem add_comment_redirects (db : DB) (request : Request) (user : User)
    (pid : Z) (post : Post) :
  req_user request = Some user ->
  posts_by_id db pid = [post] ->
  let form := new_CommentForm (or_None (req_POST request)) in
  let out := respond (add_comment request pid) db in
  fst out = Redirect (posts_post_detail pid)
  /\ (cf_is_valid form = true ->
      exists comment,
        comments (snd out) = comments db ++ [comment]
        /\ comment_post comment = Some pid
        /\ comment_author comment = Some (user_id user)
        /\ comment_text comment = snd (comment_form_clean (req_POST request))
        /\ posts (snd out) = posts db /\ follows (snd out) = follows db
        /\ users (snd out) = users db)
  /\ (cf_is_valid form = false -> snd out = db).
Proof.
  intros Hu Hpost form out.
  pose proof (post_id_of_filter db pid post Hpost) as Hid.
  subst out. unfold add_comment. run_view. rewrite Hu, Hpost. cbn [qs_get].
  run_view. fold form.
  destruct (cf_is_valid form) eqn:Hv.
  - unfold save_comment. cbn [comment_post comment_author comment_id].
    rewrite Hid.
    cbn [cf_cleaned_instance form new_CommentForm cf_instance blank_Comment
         comment_id fst snd].
    split; [reflexivity|]. split; [|discriminate].
    intros _. eexists. split; [reflexivity|].
    cbn [stamp_comment comment_post comment_author comment_text
         set_comments posts follows users cf_data].
    repeat split.
    unfold cf_is_valid, cf_is_bound in Hv. cbn [form new_CommentForm cf_data] in Hv.
    destruct (or_None (req_POST request)) as [d|] eqn:Ed; [|discriminate].
    destruct (req_POST request); [discriminate|].
    cbn in Ed. injection Ed as <-. reflexivity.
  - cbn [fst snd]. split; [reflexivity|]. split; [discriminate|reflexivity].
Qed.

End CommentViews.

(** ** Following and unfollowing *)

Lemma filter_id {A} (f : A -> bool) (l : list A) :
  (forall x, In x l -> f x = true) -> filter f l = l.
Proof.
  induction l as [|a l IH]; intros H; [reflexivity|].
  cbn [filter]. rewrite (H a (or_introl eq_refl)).
  f_equal. apply IH. intros x Hx. apply H. now right.
Qed.

Lemma in_singleton_filter {A} (f : A -> bool) (l : list A) (x y : A) :
  filter f l = [x] -> In y l -> f y = true -> y = x.
Proof.
  intros E Hy Hf.
  assert (In y (filter f l)) as H by (apply filter_In; now split).
  rewrite E in H. destruct H as [H|[]]. now symmetry.
Qed.

Lemma target_in_users (db : DB) (name : string) (target : User) :
  users_by_username db name = [target] ->
  In target (users db) /\ username target = name.
Proof.
  intros E.
  assert (In target (users_by_username db name)) as H by (rewrite E; now left).
  apply filter_In in H. destruct H as [H1 H2].
  split; [exact H1|]. now apply String.eqb_eq.
Qed.

(** One [profile_follow] request for an existing user, in a table with
    at most one row for the pair. *)
Lemma profile_follow_step (db : DB) (request : Request) (user : User)
    (name : string) (target : User) :
  req_user request = Some user ->
  users_by_username db name = [target] ->
  (length (follows_of_pair db (user_id user) (user_id target)) <= 1)%nat ->
  exists db',
    respond (profile_follow request name) db = (Redirect (posts_profile name), db')
    /\ users db' = users db
    /\ (length (follows_of_pair db' (user_id user) (user_id target)) <= 1)%nat
    /\ (user_id user = user_id target -> db' = db)
    /\ (follows_of_pair db (user_id user) (user_id target) <> [] -> db' = db)
    /\ (user_id user <> user_id target ->
        follows_of_pair db (user_id user) (user_id target) = [] ->
        follows db'
        = follows db ++ [mkFollow (next_follow_id db) (user_id user) (user_id target)]).
Proof.
  intros Hu Ht Hc.
  unfold profile_follow. run_view. rewrite Hu, Ht. cbn [qs_get]. run_view.
  cbn [user_ne andb].
  destruct (Z.eqb_spec (user_id user) (user_id target)) as [E|E]; cbn [negb andb].
  - exists db. repeat split; auto. now intros.
  - unfold follow_get_or_create.
    destruct (follows_of_pair db (user_id user) (user_id target))
      as [|f [|g rest]] eqn:Ef; cbn [qs_get].
    + eexists. split; [reflexivity|].
      cbn [users set_follows]. split; [reflexivity|].
      unfold follows_of_pair in *. cbn [follows set_follows].
      rewrite filter_app, Ef. cbn [filter follow_user follow_author].
      rewrite !Z.eqb_refl. cbn [andb app length].
      repeat split; auto; try lia; intros; congruence.
    + exists db. rewrite Ef.
      repeat split; auto; try discriminate; intros; congruence.
    + cbn [length] in Hc. lia.
Qed.

(** C7. For an authenticated requester and an existing target, the
    follow view stores nothing when the requester is the target; and
    when the table holds at most one row for the pair, any number of
    follow requests in a row leaves at most one row for the pair, each
    of them answered by a redirect to the profile of the target. *)
Theorem profile_follow_no_duplicates (db : DB) (request : Request) (user : User)
    (name : string) (target : User) :
  req_user request = Some user ->
  users_by_username db name = [target] ->
  (user_id user = user_id target ->
   respond (profile_follow request name) db = (Redirect (posts_profile name), db))
  /\ ((length (follows_of_pair db (user_id user) (user_id target)) <= 1)%nat ->
      forall n,
        let out := repeat_request n (profile_follow request name) db in
        Forall (fun r => r = Redirect (posts_profile name)) (fst out)
        /\ length (fst out) = n
        /\ (length (follows_of_pair (snd out) (user_id user) (user_id target)) <= 1)%nat).
Proof.
  intros Hu Ht. split.
  - intros E. unfold profile_follow. run_view. rewrite Hu, Ht. cbn [qs_get].
    run_view. cbn [user_ne]. rewrite E, Z.eqb_refl. reflexivity.
  - intros Hc n. revert db Ht Hc.
    induction n as [|n IH]; intros db Ht Hc; cbn [repeat_request].
    + cbn [fst snd]. repeat split; [constructor | exact Hc].
    + destruct (profile_follow_step db request user name target Hu Ht Hc)
        as (db' & E & Husers & Hc' & _).
      rewrite E.
      assert (Ht' : users_by_username db' name = [target])
        by (unfold users_by_username in *; now rewrite Husers).
      specialize (IH db' Ht' Hc').
      destruct (repeat_request n (profile_follow request name) db') as [rs db''].
      cbn [fst snd] in *. destruct IH as (H1 & H2 & H3).
      repeat split;
        [constructor; [reflexivity|exact H1] | cbn [length]; now rewrite H2 | exact H3].
Qed.

(** C8. When an authenticated requester follows an existing user other
    than the requester, whom the requester did not follow yet, and then
    unfollows that user, the table of [Follow] rows (and so their
    number) is back to what it was; in between it has one row more. *)
Theorem follow_then_unfollow (db : DB) (request : Request) (user : User)
    (name : string) (target : User) :
  req_user request = Some user ->
  users_by_username db name = [target] ->
  user_id user <> user_id target ->
  follows_of_pair db (user_id user) (user_id target) = [] ->
  let out1 := respond (profile_follow request name) db in
  let out2 := respond (profile_unfollow request name) (snd out1) in
  fst out1 = Redirect (posts_profile name)
  /\ fst out2 = Redirect (posts_profile name)
  /\ length (follows (snd out1)) = S (length (follows db))
  /\ follows (snd out2) = follows db
  /\ length (follows (snd out2)) = length (follows db).
Proof.
  intros Hu Ht Hne Hnone out1 out2.
  destruct (profile_follow_step db request user name target Hu Ht)
    as (db1 & E1 & Husers & _ & _ & _ & Hnew).
  { rewrite Hnone. cbn. lia. }
  specialize (Hnew Hne Hnone).
  assert (E2 : follows (snd out2) = follows db).
  { subst out2 out1. rewrite E1. cbn [snd].
    unfold profile_unfollow. run_view. rewrite Hu.
    unfold delete_follows. cbn [snd follows set_follows].
    rewrite Hnew, filter_app.
    destruct (target_in_users db name target Ht) as [Hin Hname].
    replace (filter _ [_]) with (@nil Follow).
    - rewrite app_nil_r. apply filter_id. intros f Hf.
      apply negb_true_iff. unfold follows_user_of_named.
      destruct (Z.eqb_spec (follow_user f) (user_id user)) as [Efu|_];
        [|reflexivity].
      cbn [andb]. rewrite Husers.
      destruct (existsb _ (users db)) eqn:Ex; [|reflexivity].
      apply existsb_exists in Ex. destruct Ex as (a & Ha & Hab).
      apply andb_true_iff in Hab. destruct Hab as [Hid Hnm].
      apply Z.eqb_eq in Hid.
      assert (a = target) as ->
        by (eapply in_singleton_filter; [exact Ht | exact Ha | exact Hnm]).
      assert (In f (follows_of_pair db (user_id user) (user_id target))) as Hpair.
      { apply filter_In. split; [exact Hf|].
        rewrite Efu, <- Hid, !Z.eqb_refl. reflexivity. }
      rewrite Hnone in Hpair. destruct Hpair.
    - cbn [filter]. unfold follows_user_of_named.
      cbn [follow_user follow_author]. rewrite Z.eqb_refl, Husers. cbn [andb].
      replace (existsb _ (users db)) with true; [reflexivity|].
      symmetry. apply existsb_exists. exists target. split; [exact Hin|].
      rewrite Z.eqb_refl. cbn [andb]. now apply String.eqb_eq. }
  split; [subst out1; now rewrite E1|].
  split.
  { subst out2. unfold profile_unfollow. run_view. rewrite Hu. reflexivity. }
  split.
  { subst out1. rewrite E1. cbn [snd]. rewrite Hnew, length_app. cbn. lia. }
  split; [exact E2 | now rewrite E2].
Qed.

(** C9. For an authenticated requester, the unfollow view answers any
    username with a redirect to the profile of that name, never with
    not-found and whatever the users table holds.  When no user has
    the name, no row matches, the database is as it was, and the
    follow view answers the same request with not-found. *)
Theorem profile_unfollow_never_not_found (db : DB) (request : Request)
    (user : User) (name : string) :
  req_user request = Some user ->
  fst (respond (profile_unfollow request name) db) = Redirect (posts_profile name)
  /\ (users_by_username db name = [] ->
      respond (profile_unfollow request name) db = (Redirect (posts_profile name), db)
      /\ respond (profile_follow request name) db = (NotFound, db)).
Proof.
  intros Hu. split.
  - unfold profile_unfollow. run_view. rewrite Hu. reflexivity.
  - intros Hnone. split.
    + unfold profile_unfollow. run_view. rewrite Hu.
      unfold delete_follows. cbn beta iota.
      rewrite filter_id; [now rewrite set_follows_same|].
      intros f _. apply negb_true_iff. unfold follows_user_of_named.
      destruct (existsb _ (users db)) eqn:Ex; [|apply andb_false_r].
      apply existsb_exists in Ex. destruct Ex as (a & Ha & Hab).
      apply andb_true_iff in Hab. destruct Hab as [_ Hnm].
      assert (In a (users_by_username db name)) as H
        by (apply filter_In; now split).
      rewrite Hnone in H. destruct H.
    + unfold profile_follow. run_view. rewrite Hu, Hnone. reflexivity.
Qed.

(** * The statements at the fixtures of the test suite *)

(** Page 2 of the thirteen posts of [PaginatorTest] on the four
    listing routes: three items. *)
Lemma listing_page_size_witness :
  let request := get_request test_user (Some 2) in
  serves_items (respond (index request) paginator_db) paginator_db 3
  /\ serves_items (respond (group_posts request "test-slug") paginator_db)
                  paginator_db 3
  /\ serves_items (respond (profile request "author") paginator_db)
                  paginator_db 3
  /\ serves_items (respond (follow_index request) paginator_db) paginator_db 3.
Proof.
  intros request.
  pose proof (listing_page_size paginator_db request 2 eq_refl ltac:(discriminate))
    as (H1 & H2 & H3 & H4 & _).
  split; [exact (H1 13 eq_refl eq_refl)|].
  split; [exact (H2 "test-slug" test_group 13 eq_refl eq_refl eq_refl)|].
  split; [exact (H3 "author" author_user 13 eq_refl eq_refl eq_refl)|].
  exact (H4 test_user 13 eq_refl eq_refl eq_refl).
Defined.

(** A plain GET of the creation page and of the edit page of post 1 by
    its author. *)
Lemma get_renders_form_only_witness :
  respond (post_create (F := spec_forms) (get_request test_user None)) view_db
  = (Render "posts/create_post.html"
            [("form", VPostForm (new_PostForm None None None))], view_db)
  /\ snd (respond (post_edit (F := spec_forms) (get_request test_user None) 1) view_db)
     = view_db.
Proof.
  pose proof (get_renders_form_only (F := spec_forms) view_db
                (get_request test_user None) test_user eq_refl eq_refl eq_refl)
    as (H1 & H2).
  split; [exact H1|].
  destruct (H2 1 _ eq_refl eq_refl) as (_ & H3).
  exact (f_equal snd H3).
Defined.

(** An empty text sent to the creation route: the bound form has an
    error on the text field, the rendered form has none. *)
Lemma post_create_invalid_witness :
  pf_errors (F := spec_forms) view_db
            (new_PostForm (or_None (req_POST invalid_create_request))
                          (or_None (req_FILES invalid_create_request)) None)
  = [("text", ["This field is required."])]
  /\ respond (post_create (F := spec_forms) invalid_create_request) view_db
     = (Render "posts/create_post.html"
               [("form", VPostForm (new_PostForm None None None))], view_db)
  /\ pf_errors (F := spec_forms) view_db (new_PostForm None None None) = [].
Proof.
  split; [reflexivity|].
  pose proof (post_create_invalid (F := spec_forms) view_db invalid_create_request
                test_user eq_refl eq_refl) as (H1 & H2 & _).
  split; [exact H1 | exact H2].
Defined.

(** A valid creation by [test_user]: post 2 is appended. *)
Lemma post_create_valid_witness :
  exists post db',
    respond (post_create (F := spec_forms) valid_create_request) view_db
    = (Redirect (posts_profile "test_user"), db')
    /\ posts db' = posts view_db ++ [post]
    /\ post_author post = Some 2
    /\ post_id post = Some 2
    /\ Z.of_nat (length (posts db')) = 2.
Proof.
  destruct (post_create_valid (F := spec_forms) view_db valid_create_request
              test_user eq_refl eq_refl)
    as (post & db' & H1 & H2 & H3 & H4 & _ & _ & H5 & _).
  exists post, db'. repeat split; assumption.
Defined.

(** [author] asks for the edit page of the post of [test_user]. *)
Lemma post_edit_not_author_witness :
  respond (post_edit (F := spec_forms) foreign_edit_request 1) view_db
  = (Redirect (posts_post_detail 1), view_db).
Proof.
  refine (proj1 (post_edit_not_author (F := spec_forms) view_db
                   foreign_edit_request author_user 1 _ eq_refl eq_refl _)).
  discriminate.
Defined.

(** [test_user] edits post 1.  Sending a text, the empty group and the
    file [new.gif], the row takes the text, loses its group and gets
    the path of the stored upload; sending no file, it keeps the image
    it had. *)
Lemma post_edit_by_author_witness :
  (exists db',
      respond (post_edit (F := spec_forms) image_edit_request 1) view_db
      = (Redirect (posts_post_detail 1), db')
      /\ posts_by_id db' 1
         = [mkPost (Some 1) "Edited text" 5 (Some 2) None (Some "posts/new.gif")])
  /\ (exists db',
        respond (post_edit (F := spec_forms) edit_request 1) view_db
        = (Redirect (posts_post_detail 1), db')
        /\ posts_by_id db' 1
           = [mkPost (Some 1) "Edited text" 5 (Some 2) None
                     (Some "posts/small.gif")]).
Proof.
  split.
  - destruct (post_edit_by_author (F := spec_forms) view_db image_edit_request
                test_user 1 _ eq_refl eq_refl eq_refl eq_refl)
      as (post' & db' & H1 & H2 & H3 & H4 & H5 & H6 & H7 & H8 & _).
    exists db'. split; [exact H1|]. rewrite H2.
    destruct post'; cbn in *. now subst.
  - destruct (post_edit_by_author (F := spec_forms) view_db edit_request
                test_user 1 _ eq_refl eq_refl eq_refl eq_refl)
      as (post' & db' & H1 & H2 & H3 & H4 & H5 & H6 & H7 & H8 & _).
    exists db'. split; [exact H1|]. rewrite H2.
    destruct post'; cbn in *. now subst.
Defined.

(** A valid comment of [test_user] on post 1. *)
Lemma add_comment_redirects_witness :
  let out := respond (add_comment (F := spec_forms) comment_request 1) view_db in
  fst out = Redirect (posts_post_detail 1)
  /\ exists comment,
       comments (snd out) = [comment]
       /\ comment_post comment = Some 1 /\ comment_author comment = Some 2.
Proof.
  intros out.
  destruct (add_comment_redirects (F := spec_forms) view_db comment_request
              test_user 1 _ eq_refl eq_refl) as (H1 & H2 & _).
  split; [exact H1|].
  destruct (H2 eq_refl) as (c & Hc & Hp & Ha & _).
  exists c. repeat split; assumption.
Defined.

(** [test_user], who follows [author] already, asks three times more. *)
Lemma profile_follow_no_duplicates_witness :
  let out := repeat_request 3 (profile_follow (get_request test_user None) "author")
                            paginator_db in
  Forall (fun r => r = Redirect (posts_profile "author")) (fst out)
  /\ (length (follows_of_pair (snd out) 2 1) <= 1)%nat.
Proof.
  intros out.
  destruct (profile_follow_no_duplicates paginator_db (get_request test_user None)
              test_user "author" author_user eq_refl eq_refl) as (_ & H).
  destruct (H ltac:(cbn; apply le_n) 3%nat) as (H1 & _ & H3).
  split; assumption.
Defined.

(** [test_follow_and_unfollow]: [test_user] follows [author], then
    unfollows. *)
Lemma follow_then_unfollow_witness :
  let out1 := respond (profile_follow (get_request test_user None) "author") view_db in
  let out2 := respond (profile_unfollow (get_request test_user None) "author")
                      (snd out1) in
  length (follows (snd out1)) = 1%nat /\ follows (snd out2) = [].
Proof.
  intros out1 out2.
  destruct (follow_then_unfollow view_db (get_request test_user None) test_user
              "author" author_user eq_refl eq_refl ltac:(discriminate) eq_refl)
    as (_ & _ & H3 & H4 & _).
  split; [exact H3 | exact H4].
Defined.

(** The username [ghost] names no user: unfollow redirects, follow
    answers not-found. *)
Lemma profile_unfollow_never_not_found_witness :
  respond (profile_unfollow (get_request test_user None) "ghost") paginator_db
  = (Redirect (posts_profile "ghost"), paginator_db)
  /\ respond (profile_follow (get_request test_user None) "ghost") paginator_db
     = (NotFound, paginator_db).
Proof.
  destruct (profile_unfollow_never_not_found paginator_db
              (get_request test_user None) test_user "ghost" eq_refl) as (_ & H).
  exact (H eq_refl).
Defined.

(** * The follow table over any run of requests *)

Lemma keeps_follows_ret {A} (a : A) : keeps_follows (ret a).
Proof. intros db. reflexivity. Qed.

Lemma keeps_follows_raise {A} (e : Exn) : keeps_follows (@raise A e).
Proof. intros db. reflexivity. Qed.

Lemma keeps_follows_lift {A} (o : Outcome A) : keeps_follows (lift o).
Proof. intros db. reflexivity. Qed.

Lemma keeps_follows_read {A} (f : DB -> A) : keeps_follows (read f).
Proof. intros db. reflexivity. Qed.

Lemma keeps_follows_bind {A B} (m : View A) (k : A -> View B) :
  keeps_follows m -> (forall a, keeps_follows (k a)) -> keeps_follows (bind m k).
Proof.
  intros Hm Hk db. unfold bind. specialize (Hm db).
  destruct (m db) as [[a|e] db']; cbn [snd] in *.
  - now rewrite Hk.
  - exact Hm.
Qed.

Lemma keeps_follows_get_object_or_404 {A} (q : DB -> list A) :
  keeps_follows (fun db => get_object_or_404 (q db) db).
Proof.
  intros db. unfold get_object_or_404.
  destruct (qs_get (q db)) as [a|[]]; reflexivity.
Qed.

Lemma keeps_follows_get_by_id_or_404 {A} (key : Z) (q : DB -> list A) :
  keeps_follows (fun db => get_by_id_or_404 key (q db) db).
Proof.
  intros db. unfold get_by_id_or_404.
  destruct (qs_get (q db)) as [a|[]]; try reflexivity.
  destruct (db_integer key); reflexivity.
Qed.

Lemma keeps_follows_save_post {F : Forms} (p : Post) :
  keeps_follows (save_post p).
Proof.
  intros db. unfold save_post, write_post.
  destruct (post_author _); [|reflexivity].
  destruct (post_id _); [|reflexivity].
  destruct (existsb _ _); reflexivity.
Qed.

Lemma keeps_follows_save_comment (c : Comment) : keeps_follows (save_comment c).
Proof.
  intros db. unfold save_comment.
  destruct (comment_post c); [|reflexivity].
  destruct (comment_author c); [|reflexivity].
  destruct (comment_id c); [|reflexivity].
  destruct (existsb _ _); reflexivity.
Qed.

Lemma keeps_follows_login_required (view : Request -> User -> View Response)
    (request : Request) :
  (forall user, keeps_follows (view request user)) ->
  keeps_follows (login_required view request).
Proof.
  intros H. unfold login_required.
  destruct (req_user request); [apply H | apply keeps_follows_ret].
Qed.

Create HintDb follows discriminated.
#[local] Hint Resolve keeps_follows_ret keeps_follows_raise keeps_follows_lift
  keeps_follows_read keeps_follows_get_object_or_404
  keeps_follows_get_by_id_or_404 keeps_follows_save_post
  keeps_follows_save_comment : follows.

Ltac keeps :=
  repeat first
    [ apply keeps_follows_login_required; intros
    | apply keeps_follows_bind; [|intros]
    | solve [auto with follows]
    | match goal with
      | |- keeps_follows (if ?b then _ else _) => destruct b
      end ].

Lemma respond_keeps_follows (v : View Response) (db : DB) :
  keeps_follows v -> follows (snd (respond v db)) = follows db.
Proof.
  intros H. unfold respond. specialize (H db).
  destruct (v db) as [[r|[]] db']; exact H.
Qed.

Lemma follows_unique_same (db db' : DB) :
  follows db' = follows db -> follows_unique db -> follows_unique db'.
Proof.
  intros E H user author. unfold follows_of_pair. rewrite E. apply H.
Qed.

Lemma length_filter_le {A} (f : A -> bool) (l : list A) :
  (length (filter f l) <= length l)%nat.
Proof.
  induction l as [|a l IH]; cbn [filter length]; [apply le_n|].
  destruct (f a); cbn [length]; lia.
Qed.

Lemma filter_comm {A} (f g : A -> bool) (l : list A) :
  filter f (filter g l) = filter g (filter f l).
Proof.
  induction l as [|a l IH]; [reflexivity|]. cbn [filter].
  destruct (f a) eqn:Ef, (g a) eqn:Eg; cbn [filter];
    rewrite ?Ef, ?Eg, IH; reflexivity.
Qed.

Section Runs.

Context {F : Forms}.

Lemma profile_follow_unique (db : DB) (request : Request) (name : string) :
  follows_unique db ->
  follows_unique (snd (respond (profile_follow request name) db)).
Proof.
  intros H. unfold profile_follow, login_required.
  destruct (req_user request) as [user|]; [|exact H].
  run_view.
  destruct (qs_get (users_by_username db name)) as [target|[]]; try exact H.
  unfold lift. cbn beta iota. cbn [user_ne andb].
  destruct (negb (user_id user =? user_id target)); cbn [andb]; [|exact H].
  unfold follow_get_or_create.
  destruct (follows_of_pair db (user_id user) (user_id target))
    as [|f [|g rest]] eqn:Ef; cbn [qs_get snd]; try exact H.
  intros u a. unfold follows_of_pair in *. cbn [follows set_follows].
  rewrite filter_app, length_app. cbn [filter follow_user follow_author].
  destruct (Z.eqb_spec (user_id user) u) as [<-|_]; cbn [andb].
  - destruct (Z.eqb_spec (user_id target) a) as [<-|_]; cbn [length].
    + rewrite Ef. cbn. lia.
    + pose proof (H (user_id user) a) as Hp. unfold follows_of_pair in Hp. lia.
  - cbn [length]. pose proof (H u a) as Hp. unfold follows_of_pair in Hp. lia.
Qed.

Lemma profile_unfollow_unique (db : DB) (request : Request) (name : string) :
  follows_unique db ->
  follows_unique (snd (respond (profile_unfollow request name) db)).
Proof.
  intros H. unfold profile_unfollow, login_required.
  destruct (req_user request) as [user|]; [|exact H].
  run_view. unfold delete_follows. cbn [snd].
  intros u a. unfold follows_of_pair. cbn [follows set_follows].
  rewrite filter_comm.
  etransitivity; [apply length_filter_le | apply H].
Qed.

(** X9. Whatever requests are served, in whatever order, a [Follow]
    table without duplicate pairs stays without duplicate pairs. *)
Lemma serve_all_follows_unique (rs : list (Url * Request)) (db : DB) :
  follows_unique db -> follows_unique (serve_all rs db).
Proof.
  revert db. induction rs as [|[u request] rs IH]; intros db H; [exact H|].
  cbn [serve_all]. apply IH.
  destruct u; cbn [resolve];
    try (apply profile_follow_unique; exact H);
    try (apply profile_unfollow_unique; exact H);
    (eapply follows_unique_same; [|exact H]);
    apply respond_keeps_follows.
  - unfold index. keeps.
  - unfold group_posts. keeps.
  - unfold profile. keeps.
  - unfold post_detail. keeps.
  - unfold post_create. keeps.
  - unfold post_edit. keeps.
  - unfold add_comment. keeps.
  - unfold follow_index. keeps.
Qed.

End Runs.

(** * Further properties of the views *)

(** ** Every page parameter is served *)

Lemma num_pages_10_pos (l : list Post) : 1 <= num_pages (new_Paginator l 10).
Proof.
  rewrite num_pages_10.
  pose proof (ceil_div_10_bounds (Z.max 1 (Z.of_nat (length l)))). lia.
Qed.

Lemma last_page_starts_inside (l : list Post) :
  l <> [] -> 10 * (num_pages (new_Paginator l 10) - 1) < Z.of_nat (length l).
Proof.
  intros Hl. rewrite num_pages_10.
  pose proof (ceil_div_10_bounds (Z.max 1 (Z.of_nat (length l)))).
  destruct l; [contradiction|]. cbn [length] in *. lia.
Qed.

Lemma page_in_range (l : list Post) (n : Z) :
  1 <= n <= num_pages (new_Paginator l 10) ->
  page (new_Paginator l 10) (Some n) = Ok (page_of l n).
Proof.
  intros [H1 H2]. unfold page, validate_number.
  destruct (Z.ltb_spec n 1); [lia|].
  destruct (Z.ltb_spec (num_pages (new_Paginator l 10)) n); [lia|].
  reflexivity.
Qed.

(** Which page [get_page] serves: the one asked for when it exists,
    the first for a parameter that is absent or no integer, the last
    for a number out of range on either side. *)
Lemma get_page_cases (l : list Post) (number : option Z) :
  let last := num_pages (new_Paginator l 10) in
  exists n,
    1 <= n <= last
    /\ get_page (new_Paginator l 10) number = Ok (page_of l n)
    /\ (number = None -> n = 1)
    /\ (forall k, number = Some k ->
          (1 <= k <= last -> n = k) /\ (k < 1 \/ last < k -> n = last)).
Proof.
  intros last. pose proof (num_pages_10_pos l) as Hpos. fold last in Hpos.
  destruct number as [k|].
  - destruct (Z.ltb_spec k 1) as [Hlow|Hlow].
    + exists last. split; [lia|]. split.
      * unfold get_page, validate_number.
        destruct (Z.ltb_spec k 1); [|lia]. apply page_in_range. fold last. lia.
      * split; [discriminate|]. intros k' [= <-]. split; [lia|reflexivity].
    + destruct (Z.ltb_spec last k) as [Hhigh|Hhigh].
      * exists last. split; [lia|]. split.
        -- unfold get_page, validate_number.
           destruct (Z.ltb_spec k 1); [lia|]. fold last.
           destruct (Z.ltb_spec last k); [|lia]. apply page_in_range. fold last. lia.
        -- split; [discriminate|]. intros k' [= <-]. split; [lia|reflexivity].
      * exists k. split; [lia|]. split.
        -- unfold get_page, validate_number.
           destruct (Z.ltb_spec k 1); [lia|]. fold last.
           destruct (Z.ltb_spec last k); [lia|]. apply page_in_range. fold last. lia.
        -- split; [discriminate|]. intros k' [= <-]. split; [reflexivity|lia].
  - exists 1. split; [lia|]. split.
    + unfold get_page, validate_number. apply page_in_range. fold last. lia.
    + split; [reflexivity|discriminate].
Qed.

Lemma page_of_len (l : list Post) (n : Z) :
  1 <= n <= num_pages (new_Paginator l 10) ->
  0 <= page_len (page_of l n) <= 10
  /\ (l <> [] -> 1 <= page_len (page_of l n)).
Proof.
  intros Hn. unfold page_len, page_of. cbn [page_object_list].
  set (len := Z.of_nat (length l)).
  assert (Hb : (n - 1) * 10 <= len).
  { destruct l as [|p l'].
    - pose proof (num_pages_10 []) as E. cbn [length] in E.
      pose proof (ceil_div_10_bounds (Z.max 1 (Z.of_nat 0))).
      subst len. cbn [length]. lia.
    - pose proof (last_page_starts_inside (p :: l') ltac:(discriminate)).
      fold len in H. lia. }
  destruct (Z.leb_spec len ((n - 1) * 10 + 10 + 0)).
  - rewrite length_slice by (fold len; lia). split; [lia|].
    intros Hl. pose proof (last_page_starts_inside l Hl). fold len in H0. lia.
  - rewrite length_slice by (fold len; lia). lia.
Qed.

Lemma get_page_serves (l : list Post) (number : option Z) :
  exists pg,
    get_page (new_Paginator l 10) number = Ok pg
    /\ page_paginator pg = new_Paginator l 10
    /\ 0 <= page_len pg <= 10
    /\ 1 <= page_number pg <= num_pages (new_Paginator l 10)
    /\ (l <> [] -> 1 <= page_len pg).
Proof.
  destruct (get_page_cases l number) as (n & Hn & E & _).
  destruct (page_of_len l n Hn) as [H1 H2].
  exists (page_of l n). repeat split; try assumption; try apply Hn; apply H1.
Qed.

Ltac serve_any :=
  match goal with
  | |- context [get_page (new_Paginator ?l 10) ?number] =>
      let pg := fresh "pg" in
      let E := fresh "E" in
      let P := fresh "P" in
      destruct (get_page_serves l number) as (pg & E & P & ? & ? & ?);
      rewrite E; split; [reflexivity|];
      eexists _, _, pg; split; [reflexivity|]; split; [reflexivity|];
      rewrite P; repeat split; try assumption; try lia
  end.

(** X4. The four listing views answer every page parameter (absent,
    not a number, below 1, beyond the last page) with a rendered page
    of at most ten items, never with an error, and write nothing. *)
Theorem listing_always_renders (db : DB) (request : Request) :
  serves_a_page (respond (index request) db) db
  /\ (forall slug group,
        groups_by_slug db slug = [group] ->
        serves_a_page (respond (group_posts request slug) db) db)
  /\ (forall name author,
        users_by_username db name = [author] ->
        serves_a_page (respond (profile request name) db) db)
  /\ (forall user,
        req_user request = Some user ->
        serves_a_page (respond (follow_index request) db) db).
Proof.
  split; [|split; [|split]].
  - unfold index. run_view. serve_any.
  - intros slug group Hg. unfold group_posts. run_view.
    rewrite Hg. cbn [qs_get]. run_view. serve_any.
  - intros name author Ha. unfold profile. run_view.
    rewrite Ha. cbn [qs_get]. run_view. serve_any.
  - intros user Hu. unfold follow_index. run_view. rewrite Hu. serve_any.
Qed.

(** X5. Which page of the index is served: the first one when the
    page parameter is absent or no integer, the page asked for when it
    exists, and the last page for a number below 1 or beyond the last
    page. *)
Theorem index_page_fallback (db : DB) (request : Request) :
  let last := num_pages (new_Paginator (all_posts db) 10) in
  exists pg,
    respond (index request) db
    = (Render "posts/index.html" [("page_obj", VPage pg)], db)
    /\ (req_page request = None -> page_number pg = 1)
    /\ (forall k, req_page request = Some k ->
          (1 <= k <= last -> page_number pg = k)
          /\ (k < 1 \/ last < k -> page_number pg = last)).
Proof.
  intros last.
  destruct (get_page_cases (all_posts db) (req_page request)) as (n & _ & E & H1 & H2).
  exists (page_of (all_posts db) n). split.
  - unfold index. run_view. rewrite E. reflexivity.
  - split; [exact H1 | exact H2].
Qed.

(** ** The pages of the index partition the listing *)

Lemma firstn_plus {A} (a b : nat) (l : list A) :
  firstn (a + b) l = firstn a l ++ firstn b (skipn a l).
Proof.
  revert l. induction a as [|a IH]; intros l; [reflexivity|].
  destruct l as [|x l]; cbn [Nat.add firstn skipn app].
  - now rewrite firstn_nil.
  - now rewrite IH.
Qed.

Lemma page_of_items (l : list Post) (i : nat) :
  page_object_list (page_of l (Z.of_nat i + 1))
  = firstn 10 (skipn (10 * i) l).
Proof.
  unfold page_of. cbn [page_object_list]. unfold slice.
  replace (Z.to_nat ((Z.of_nat i + 1 - 1) * 10)) with (10 * i)%nat by lia.
  destruct (Z.leb_spec (Z.of_nat (length l)) ((Z.of_nat i + 1 - 1) * 10 + 10 + 0)).
  - rewrite !firstn_all2; [reflexivity | |]; rewrite length_skipn; lia.
  - f_equal. lia.
Qed.

Lemma index_items_in_range (db : DB) (i : nat) :
  Z.of_nat i + 1 <= num_pages (new_Paginator (all_posts db) 10) ->
  index_items db (Z.of_nat i + 1) = firstn 10 (skipn (10 * i) (all_posts db)).
Proof.
  intros Hi. unfold index_items, index. run_view. cbn [req_page].
  destruct (get_page_cases (all_posts db) (Some (Z.of_nat i + 1)))
    as (n & _ & E & _ & H).
  destruct (H _ eq_refl) as [Hn _]. rewrite (Hn ltac:(lia)) in E.
  rewrite E. exact (page_of_items (all_posts db) i).
Qed.

Lemma index_pages_prefix (db : DB) (k : nat) :
  Z.of_nat k <= num_pages (new_Paginator (all_posts db) 10) ->
  index_pages db k = firstn (10 * k) (all_posts db).
Proof.
  induction k as [|k IH]; intros Hk; [reflexivity|].
  unfold index_pages in *. rewrite seq_S, flat_map_app. cbn [flat_map Nat.add].
  rewrite app_nil_r.
  assert (H1 : Z.of_nat k <= num_pages (new_Paginator (all_posts db) 10)) by lia.
  assert (H2 : Z.of_nat k + 1 <= num_pages (new_Paginator (all_posts db) 10))
    by lia.
  rewrite (IH H1), (index_items_in_range db k H2).
  replace (10 * S k)%nat with (10 * k + 10)%nat by lia.
  now rewrite firstn_plus.
Qed.

(** X6. Read one after the other, pages 1 to the last page of the
    index give the whole ordered listing: every post appears on the
    index, once, and in listing order. *)
Theorem index_pages_cover (db : DB) :
  index_pages db (Z.to_nat (num_pages (new_Paginator (all_posts db) 10)))
  = all_posts db.
Proof.
  pose proof (num_pages_10 (all_posts db)) as E.
  pose proof (ceil_div_10_bounds (Z.max 1 (Z.of_nat (length (all_posts db))))) as B.
  pose proof (num_pages_10_pos (all_posts db)) as P.
  assert (HN : Z.of_nat (Z.to_nat (num_pages (new_Paginator (all_posts db) 10)))
               <= num_pages (new_Paginator (all_posts db) 10))
    by (rewrite Z2Nat.id; lia).
  rewrite (index_pages_prefix db _ HN).
  apply firstn_all2. rewrite E in *. lia.
Qed.

(** ** What a view leaves alone *)

Section Frames.

Context {B : Type} (field : DB -> B).

Lemma keeps_ret {A} (a : A) : keeps field (ret a).
Proof. intros db. reflexivity. Qed.

Lemma keeps_raise {A} (e : Exn) : keeps field (@raise A e).
Proof. intros db. reflexivity. Qed.

Lemma keeps_lift {A} (o : Outcome A) : keeps field (lift o).
Proof. intros db. reflexivity. Qed.

Lemma keeps_read {A} (f : DB -> A) : keeps field (read f).
Proof. intros db. reflexivity. Qed.

Lemma keeps_bind {A C} (m : View A) (k : A -> View C) :
  keeps field m -> (forall a, keeps field (k a)) -> keeps field (bind m k).
Proof.
  intros Hm Hk db. unfold bind. specialize (Hm db).
  destruct (m db) as [[a|e] db']; cbn [snd] in *.
  - now rewrite Hk.
  - exact Hm.
Qed.

Lemma keeps_get_object_or_404 {A} (q : DB -> list A) :
  keeps field (fun db => get_object_or_404 (q db) db).
Proof.
  intros db. unfold get_object_or_404.
  destruct (qs_get (q db)) as [a|[]]; reflexivity.
Qed.

Lemma keeps_get_by_id_or_404 {A} (key : Z) (q : DB -> list A) :
  keeps field (fun db => get_by_id_or_404 key (q db) db).
Proof.
  intros db. unfold get_by_id_or_404.
  destruct (qs_get (q db)) as [a|[]]; try reflexivity.
  destruct (db_integer key); reflexivity.
Qed.

Lemma keeps_login_required (view : Request -> User -> View Response)
    (request : Request) :
  (forall user, keeps field (view request user)) ->
  keeps field (login_required view request).
Proof.
  intros H. unfold login_required.
  destruct (req_user request); [apply H | apply keeps_ret].
Qed.

Lemma respond_keeps (v : View Response) (db : DB) :
  keeps field v -> field (snd (respond v db)) = field db.
Proof.
  intros H. unfold respond. specialize (H db).
  destruct (v db) as [[r|[]] db']; exact H.
Qed.

End Frames.

Ltac save_cases :=
  let d := fresh "db" in
  intros d;
  unfold save_post, write_post, save_comment, follow_get_or_create,
    delete_follows;
  repeat match goal with
         | |- context [match ?x with _ => _ end] => destruct x
         end;
  reflexivity.

Lemma save_post_keeps_users {F : Forms} p : keeps users (save_post p).
Proof. save_cases. Qed.
Lemma save_post_keeps_groups {F : Forms} p : keeps groups (save_post p).
Proof. save_cases. Qed.
Lemma save_post_keeps_comments {F : Forms} p : keeps comments (save_post p).
Proof. save_cases. Qed.
Lemma save_comment_keeps_users c : keeps users (save_comment c).
Proof. save_cases. Qed.
Lemma save_comment_keeps_groups c : keeps groups (save_comment c).
Proof. save_cases. Qed.
Lemma save_comment_keeps_posts c : keeps posts (save_comment c).
Proof. save_cases. Qed.
Lemma get_or_create_keeps_users u a : keeps users (follow_get_or_create u a).
Proof. save_cases. Qed.
Lemma get_or_create_keeps_groups u a : keeps groups (follow_get_or_create u a).
Proof. save_cases. Qed.
Lemma get_or_create_keeps_posts u a : keeps posts (follow_get_or_create u a).
Proof. save_cases. Qed.
Lemma get_or_create_keeps_comments u a : keeps comments (follow_get_or_create u a).
Proof. save_cases. Qed.
Lemma delete_follows_keeps_users u n : keeps users (delete_follows u n).
Proof. save_cases. Qed.
Lemma delete_follows_keeps_groups u n : keeps groups (delete_follows u n).
Proof. save_cases. Qed.
Lemma delete_follows_keeps_posts u n : keeps posts (delete_follows u n).
Proof. save_cases. Qed.
Lemma delete_follows_keeps_comments u n : keeps comments (delete_follows u n).
Proof. save_cases. Qed.

Create HintDb frames discriminated.
#[local] Hint Resolve keeps_ret keeps_raise keeps_lift keeps_read
  keeps_get_object_or_404 keeps_get_by_id_or_404
  save_post_keeps_users save_post_keeps_groups save_post_keeps_comments
  save_comment_keeps_users save_comment_keeps_groups save_comment_keeps_posts
  get_or_create_keeps_users get_or_create_keeps_groups get_or_create_keeps_posts
  get_or_create_keeps_comments delete_follows_keeps_users
  delete_follows_keeps_groups delete_follows_keeps_posts
  delete_follows_keeps_comments : frames.

Ltac frame :=
  repeat first
    [ apply keeps_login_required; intros
    | apply keeps_bind; [|intros]
    | solve [auto with frames]
    | match goal with
      | |- keeps _ (if ?b then _ else _) => destruct b
      end ].

Section Safety.

Context {F : Forms}.

(** X2. The five reading views (index, group listing, profile, post
    detail, follow feed) leave the whole database as it was, whatever
    the request and whether they render, redirect or fail. *)
Theorem reading_views_never_write (db : DB) (request : Request) :
  snd (respond (index request) db) = db
  /\ (forall slug, snd (respond (group_posts request slug) db) = db)
  /\ (forall name, snd (respond (profile request name) db) = db)
  /\ (forall pid, snd (respond (post_detail request pid) db) = db)
  /\ snd (respond (follow_index request) db) = db.
Proof.
  repeat split; intros;
    apply (respond_keeps (fun d => d));
    unfold index, group_posts, profile, post_detail, follow_index; frame.
Qed.

(** X1. A request of the anonymous user changes nothing on any of
    the ten routes, and the six views under [login_required] answer it
    with the redirect to the login page. *)
Theorem anonymous_never_writes (db : DB) (request : Request) :
  req_user request = None ->
  (forall u, snd (respond (resolve u request) db) = db)
  /\ respond (post_create request) db = (Redirect login, db)
  /\ (forall pid, respond (post_edit request pid) db = (Redirect login, db))
  /\ (forall pid, respond (add_comment request pid) db = (Redirect login, db))
  /\ respond (follow_index request) db = (Redirect login, db)
  /\ (forall name, respond (profile_follow request name) db = (Redirect login, db))
  /\ (forall name, respond (profile_unfollow request name) db = (Redirect login, db)).
Proof.
  intros Hu.
  assert (P : forall view,
             respond (login_required view request) db = (Redirect login, db)).
  { intros view. unfold respond, login_required. now rewrite Hu. }
  split.
  - intros u.
    destruct u; cbn [resolve];
      try solve [apply (respond_keeps (fun d => d));
                 unfold index, group_posts, profile, post_detail; frame];
      unfold post_create, post_edit, add_comment, follow_index, profile_follow,
        profile_unfollow;
      now rewrite P.
  - unfold post_create, post_edit, add_comment, follow_index, profile_follow,
      profile_unfollow.
    repeat split; intros; apply P.
Qed.

Lemma db_integer_spec (z : Z) :
  db_integer z = true <-> - 2 ^ 63 <= z < 2 ^ 63.
Proof.
  unfold db_integer. rewrite andb_true_iff, Z.leb_le, Z.ltb_lt. reflexivity.
Qed.

(** X3. A slug or a username that names no row is answered with
    not-found by the group listing and the profile.  So is a post key
    that names no row, by the post detail and, for an authenticated
    user, by the edit and comment views, when the key is one a
    database integer holds; a key beyond that range ends the request
    with the uncaught [OverflowError] of the query.  In every case
    nothing is written, in particular no comment. *)
Theorem unknown_objects_not_found (db : DB) (request : Request) :
  (forall slug, groups_by_slug db slug = [] ->
                respond (group_posts request slug) db = (NotFound, db))
  /\ (forall name, users_by_username db name = [] ->
                   respond (profile request name) db = (NotFound, db))
  /\ (forall pid,
        posts_by_id db pid = [] ->
        - 2 ^ 63 <= pid < 2 ^ 63 ->
        respond (post_detail request pid) db = (NotFound, db)
        /\ (forall user, req_user request = Some user ->
              respond (post_edit request pid) db = (NotFound, db)
              /\ respond (add_comment request pid) db = (NotFound, db)))
  /\ (forall pid,
        posts_by_id db pid = [] ->
        pid < - 2 ^ 63 \/ 2 ^ 63 <= pid ->
        respond (post_detail request pid) db = (ServerError OverflowError, db)
        /\ (forall user, req_user request = Some user ->
              respond (post_edit request pid) db = (ServerError OverflowError, db)
              /\ respond (add_comment request pid) db
                 = (ServerError OverflowError, db))).
Proof.
  split; [|split; [|split]].
  - intros slug H. unfold group_posts. run_view. now rewrite H.
  - intros name H. unfold profile. run_view. now rewrite H.
  - intros pid H Hin. apply db_integer_spec in Hin. split.
    + unfold post_detail. run_view. now rewrite H, Hin.
    + intros user Hu. split.
      * unfold post_edit. run_view. now rewrite Hu, H, Hin.
      * unfold add_comment. run_view. now rewrite Hu, H, Hin.
  - intros pid H Hout.
    assert (Ed : db_integer pid = false).
    { destruct (db_integer pid) eqn:Ed; [|reflexivity].
      apply db_integer_spec in Ed. lia. }
    split.
    + unfold post_detail. run_view. now rewrite H, Ed.
    + intros user Hu. split.
      * unfold post_edit. run_view. now rewrite Hu, H, Ed.
      * unfold add_comment. run_view. now rewrite Hu, H, Ed.
Qed.

End Safety.

(** ** What no run of requests does *)

Lemma save_post_keeps_follows {F : Forms} p : keeps follows (save_post p).
Proof. save_cases. Qed.
Lemma save_comment_keeps_follows c : keeps follows (save_comment c).
Proof. save_cases. Qed.

#[local] Hint Resolve save_post_keeps_follows save_comment_keeps_follows : frames.

Lemma filter_replace_post_frame (g : Post -> bool) (i : Z) (p : Post)
    (l : list Post) :
  g p = false ->
  (forall q, In q l -> opt_eqb (post_id q) i = true -> g q = false) ->
  filter g (replace_post i p l) = filter g l.
Proof.
  intros Hp. induction l as [|q l IH]; intros H; [reflexivity|].
  cbn [replace_post map filter].
  assert (IH' : filter g (replace_post i p l) = filter g l).
  { apply IH. intros q' Hq'. apply H. now right. }
  unfold replace_post in IH'.
  destruct (opt_eqb (post_id q) i) eqn:E.
  - rewrite Hp, (H q (or_introl eq_refl) E). exact IH'.
  - destruct (g q); [f_equal|]; exact IH'.
Qed.

Section Runs_frames.

Context {F : Forms}.

Lemma step_keeps_users_groups (u : Url) (request : Request) (db : DB) :
  users (snd (respond (resolve u request) db)) = users db
  /\ groups (snd (respond (resolve u request) db)) = groups db.
Proof.
  split.
  - apply (respond_keeps users). destruct u; cbn [resolve];
      unfold index, group_posts, profile, post_detail, post_create, post_edit,
        add_comment, follow_index, profile_follow, profile_unfollow; frame.
  - apply (respond_keeps groups). destruct u; cbn [resolve];
      unfold index, group_posts, profile, post_detail, post_create, post_edit,
        add_comment, follow_index, profile_follow, profile_unfollow; frame.
Qed.

Lemma step_comments (u : Url) (request : Request) (db : DB) :
  exists cs,
    comments (snd (respond (resolve u request) db)) = comments db ++ cs
    /\ (length cs <= 1)%nat.
Proof.
  assert (K : forall v, keeps comments v ->
            exists cs, comments (snd (respond v db)) = comments db ++ cs
                       /\ (length cs <= 1)%nat).
  { intros v Hv. exists []. rewrite (respond_keeps comments v db Hv), app_nil_r.
    split; [reflexivity | cbn; lia]. }
  destruct u; cbn [resolve];
    try solve [apply K;
         unfold index, group_posts, profile, post_detail, post_create, post_edit,
           follow_index, profile_follow, profile_unfollow; frame].
  unfold add_comment, login_required.
  destruct (req_user request) as [user|];
    [|exists []; rewrite app_nil_r; split; [reflexivity | cbn; lia]].
  run_view.
  destruct (qs_get (posts_by_id db pid)) as [post|[]]; split_range;
    try (exists []; rewrite app_nil_r; split; [reflexivity | cbn; lia]).
  unfold lift. cbn beta iota.
  destruct (cf_is_valid _);
    [|exists []; rewrite app_nil_r; split; [reflexivity | cbn; lia]].
  unfold save_comment.
  cbn [comment_post comment_author comment_id cf_cleaned_instance
       new_CommentForm cf_instance blank_Comment].
  destruct (post_id post);
    [|exists []; rewrite app_nil_r; split; [reflexivity | cbn; lia]].
  eexists [_]. split; [reflexivity | cbn; lia].
Qed.

Lemma step_posts_count (u : Url) (request : Request) (db : DB) :
  (length (posts db) <= length (posts (snd (respond (resolve u request) db)))
   <= S (length (posts db)))%nat.
Proof.
  assert (K : forall v, keeps posts v ->
            (length (posts db) <= length (posts (snd (respond v db)))
             <= S (length (posts db)))%nat).
  { intros v Hv. rewrite (respond_keeps posts v db Hv). lia. }
  destruct u; cbn [resolve];
    try solve [apply K;
         unfold index, group_posts, profile, post_detail, add_comment,
           follow_index, profile_follow, profile_unfollow; frame].
  - unfold post_create, login_required.
    destruct (req_user request) as [user|]; [|cbn; lia].
    run_view. destruct (pf_is_valid db _); [|cbn; lia].
    unfold save_post, write_post.
    cbn [pre_save_image with_image with_author post_author post_id
         pf_cleaned_instance
                           construct_instance new_PostForm pf_instance
                           from_option blank_Post].
    cbn [snd posts set_posts]. rewrite length_app. cbn [length]. lia.
  - unfold post_edit, login_required.
    destruct (req_user request) as [user|]; [|cbn; lia].
    run_view.
    destruct (qs_get (posts_by_id db pid)) as [post|[]]; split_range;
      try (cbn; lia).
    unfold lift. cbn beta iota.
    destruct (opt_eqb (post_author post) (user_id user)); [|cbn; lia].
    destruct (pf_is_valid db _); [|cbn; lia].
    unfold save_post, write_post.
    cbn [pre_save_image with_image post_author post_id pf_cleaned_instance
         construct_instance
         new_PostForm pf_instance from_option].
    destruct (post_author post); [|cbn; lia].
    destruct (post_id post) as [i|].
    + destruct (existsb _ (posts db)); cbn [snd posts set_posts].
      * unfold replace_post. rewrite length_map. lia.
      * rewrite length_app. cbn [length]. lia.
    + cbn [snd posts set_posts]. rewrite length_app. cbn [length]. lia.
Qed.

(** X7. Over any run of requests to the ten routes the users and the
    groups tables stay as they are, the comments stored stay stored,
    in place and unchanged, with at most one more per request, and the
    number of posts never goes down and grows by at most one per
    request: no view deletes a post or a comment. *)
Theorem runs_only_add (rs : list (Url * Request)) (db : DB) :
  users (serve_all rs db) = users db
  /\ groups (serve_all rs db) = groups db
  /\ (exists cs, comments (serve_all rs db) = comments db ++ cs
                 /\ (length cs <= length rs)%nat)
  /\ (length (posts db) <= length (posts (serve_all rs db))
      <= length (posts db) + length rs)%nat.
Proof.
  revert db. induction rs as [|[u request] rs IH]; intros db; cbn [serve_all].
  - repeat split; try lia. exists []. rewrite app_nil_r. split; [reflexivity|cbn; lia].
  - destruct (IH (snd (respond (resolve u request) db)))
      as (Hu & Hg & (cs & Hc & Hlen) & Hp).
    destruct (step_keeps_users_groups u request db) as [Hu1 Hg1].
    destruct (step_comments u request db) as (c1 & Hc1 & Hl1).
    pose proof (step_posts_count u request db) as Hp1.
    rewrite Hu, Hg, Hc, Hu1, Hg1, Hc1.
    split; [reflexivity|]. split; [reflexivity|]. split.
    + exists (c1 ++ cs). rewrite app_assoc. split; [reflexivity|].
      rewrite length_app. cbn [length]. lia.
    + cbn [length]. lia.
Qed.

Lemma step_keeps_posts_of_others (u : Url) (request : Request) (db : DB) (a : Z) :
  match req_user request with
  | Some user => user_id user <> a
  | None => True
  end ->
  filter (authored_by a) (posts (snd (respond (resolve u request) db)))
  = filter (authored_by a) (posts db).
Proof.
  intros Ha.
  assert (K : forall v, keeps posts v ->
            filter (authored_by a) (posts (snd (respond v db)))
            = filter (authored_by a) (posts db)).
  { intros v Hv. now rewrite (respond_keeps posts v db Hv). }
  destruct u; cbn [resolve];
    try solve [apply K;
         unfold index, group_posts, profile, post_detail, add_comment,
           follow_index, profile_follow, profile_unfollow; frame].
  - unfold post_create, login_required.
    destruct (req_user request) as [user|]; [|reflexivity].
    run_view. destruct (pf_is_valid db _); [|reflexivity].
    unfold save_post, write_post.
    cbn [pre_save_image with_image with_author post_author post_id
         pf_cleaned_instance
                           construct_instance new_PostForm pf_instance
                           from_option blank_Post].
    cbn [snd posts set_posts]. rewrite filter_app. cbn [filter].
    match goal with
    | |- context [if authored_by a ?x then _ else _] =>
        assert (Hn : authored_by a x = false)
    end.
    { unfold authored_by, stamp_post. cbn [post_author opt_eqb].
      now apply Z.eqb_neq. }
    rewrite Hn. apply app_nil_r.
  - unfold post_edit, login_required.
    destruct (req_user request) as [user|]; [|reflexivity].
    run_view.
    destruct (qs_get (posts_by_id db pid)) as [post|[]] eqn:Eq; split_range;
      try reflexivity.
    unfold lift. cbn beta iota.
    destruct (opt_eqb (post_author post) (user_id user)) eqn:Eauth; [|reflexivity].
    destruct (pf_is_valid db _); [|reflexivity].
    assert (Hpost : posts_by_id db pid = [post]).
    { unfold qs_get in Eq. destruct (posts_by_id db pid) as [|x [|y r]];
        [discriminate | now injection Eq as -> | discriminate]. }
    pose proof (post_id_of_filter db pid post Hpost) as Hid.
    assert (Hnot : authored_by a post = false).
    { unfold authored_by. destruct (post_author post) as [b|]; [|reflexivity].
      cbn [opt_eqb] in *. apply Z.eqb_eq in Eauth. subst b.
      now apply Z.eqb_neq. }
    unfold save_post, write_post.
    cbn [pre_save_image with_image post_author post_id pf_cleaned_instance
         construct_instance
         new_PostForm pf_instance from_option].
    destruct (post_author post) as [b|] eqn:Eb; [|reflexivity].
    rewrite Hid.
    assert (Hnew' : forall c, authored_by a (construct_instance c post) = false).
    { intros. unfold authored_by, construct_instance in *.
      cbn [post_author]. rewrite Eb in *. exact Hnot. }
    destruct (existsb _ (posts db)); cbn [snd posts set_posts].
    + apply filter_replace_post_frame.
      * apply Hnew'.
      * intros q Hq Hqi.
        assert (q = post) as ->; [|exact Hnot].
        eapply in_singleton_filter; [exact Hpost | exact Hq | exact Hqi].
    + rewrite filter_app. cbn [filter].
      match goal with
      | |- context [if authored_by a ?x then _ else _] =>
          assert (E' : authored_by a x = false)
      end.
      { unfold authored_by in *. unfold stamp_post. cbn [post_author].
        exact (Hnew' _). }
      rewrite E'. apply app_nil_r.
Qed.

(** X8. Over any run of requests none of which comes from the user
    with the key [a], the posts of [a] stay exactly as they are: only
    the author of a post can change it, and nobody posts under another
    user's name. *)
Theorem posts_only_touched_by_author (rs : list (Url * Request)) (db : DB) (a : Z) :
  sent_by_others a rs ->
  filter (authored_by a) (posts (serve_all rs db)) = filter (authored_by a) (posts db).
Proof.
  revert db. induction rs as [|[u request] rs IH]; intros db H; [reflexivity|].
  cbn [serve_all]. inversion H as [|x l Hx Hl]; subst.
  rewrite (IH _ Hl). apply step_keeps_posts_of_others. exact Hx.
Qed.

End Runs_frames.

(** ** Nobody follows themselves *)

Section Self_follow.

Context {F : Forms}.

Lemma step_follows_rows (u : Url) (request : Request) (db : DB) (f : Follow) :
  In f (follows (snd (respond (resolve u request) db))) ->
  In f (follows db) \/ follow_user f <> follow_author f.
Proof.
  assert (K : forall v, keeps follows v ->
            In f (follows (snd (respond v db))) ->
            In f (follows db) \/ follow_user f <> follow_author f).
  { intros v Hv. rewrite (respond_keeps follows v db Hv). now left. }
  destruct u; cbn [resolve];
    try solve [apply K;
         unfold index, group_posts, profile, post_detail, post_create, post_edit,
           add_comment, follow_index; frame].
  - unfold profile_follow, login_required.
    destruct (req_user request) as [user|]; [|now left].
    run_view.
    destruct (qs_get (users_by_username db name)) as [target|[]]; try (now left).
    unfold lift. cbn beta iota. cbn [user_ne andb].
    destruct (Z.eqb_spec (user_id user) (user_id target)) as [E|E];
      cbn [negb andb]; [now left|].
    unfold follow_get_or_create.
    destruct (qs_get _) as [g|[]]; try (now left).
    cbn [snd follows set_follows]. intros Hf.
    apply in_app_or in Hf. destruct Hf as [Hf|[<-|[]]]; [now left|].
    right. exact E.
  - unfold profile_unfollow, login_required.
    destruct (req_user request) as [user|]; [|now left].
    run_view. unfold delete_follows. cbn [snd follows set_follows].
    intros Hf. apply filter_In in Hf. left. apply Hf.
Qed.

(** X10. The follow view never stores a row in which a user follows
    that same user, and no other view adds [Follow] rows: a table
    without such a row has none after any run of requests. *)
Theorem serve_all_no_self_follow (rs : list (Url * Request)) (db : DB) :
  no_self_follow db -> no_self_follow (serve_all rs db).
Proof.
  revert db. induction rs as [|[u request] rs IH]; intros db H; [exact H|].
  cbn [serve_all]. apply IH. intros f Hf.
  destruct (step_follows_rows u request db f Hf) as [Hin|Hne];
    [now apply H | exact Hne].
Qed.

End Self_follow.

(** ** What a listing shows *)

Lemma In_insert_by_date (x p : Post) (l : list Post) :
  In x (insert_by_date p l) <-> x = p \/ In x l.
Proof.
  induction l as [|q l IH]; cbn [insert_by_date In].
  - intuition.
  - destruct (post_pub_date q <? post_pub_date p); cbn [In]; [intuition|].
    rewrite IH. intuition.
Qed.

Lemma In_ordered (x : Post) (l : list Post) : In x (ordered l) <-> In x l.
Proof.
  induction l as [|p l IH]; cbn [ordered fold_right In]; [reflexivity|].
  fold (ordered l). rewrite In_insert_by_date, IH. intuition.
Qed.

Lemma In_slice {A} (x : A) (l : list A) (bottom top : Z) :
  In x (slice l bottom top) -> In x l.
Proof.
  unfold slice. intros H.
  rewrite <- (firstn_skipn (Z.to_nat bottom) l). apply in_or_app. right.
  rewrite <- (firstn_skipn (Z.to_nat (top - bottom)) (skipn (Z.to_nat bottom) l)).
  apply in_or_app. now left.
Qed.

Lemma In_posts_followed_by (q : Post) (db : DB) (u : User) :
  In q (posts_followed_by db u)
  <-> In q (posts db)
      /\ exists f, In f (follows db)
                   /\ post_author q = Some (follow_author f)
                   /\ follow_user f = user_id u.
Proof.
  unfold posts_followed_by. rewrite in_flat_map. split.
  - intros (p & Hp & Hq). apply in_map_iff in Hq. destruct Hq as (f & <- & Hf).
    apply filter_In in Hf. destruct Hf as [Hf Hb].
    apply andb_true_iff in Hb. destruct Hb as [Ha Hu].
    split; [now apply In_ordered|]. exists f. split; [exact Hf|].
    split; [|now apply Z.eqb_eq].
    destruct (post_author p) as [b|]; cbn [opt_eqb] in Ha; [|discriminate].
    apply Z.eqb_eq in Ha. now subst.
  - intros (Hq & f & Hf & Ha & Hu). exists q. split; [now apply In_ordered|].
    apply in_map_iff. exists f. split; [reflexivity|].
    apply filter_In. split; [exact Hf|].
    rewrite Ha. cbn [opt_eqb]. rewrite Hu, !Z.eqb_refl. reflexivity.
Qed.

Lemma In_served (l : list Post) (number : option Z) (pg : Page) (x : Post) :
  get_page (new_Paginator l 10) number = Ok pg ->
  In x (page_object_list pg) -> In x l.
Proof.
  intros E Hx.
  destruct (get_page_cases l number) as (n & _ & E' & _).
  rewrite E' in E. injection E as <-.
  unfold page_of in Hx. cbn [page_object_list] in Hx.
  eapply In_slice. exact Hx.
Qed.

Lemma opt_eqb_true (o : option Z) (z : Z) : opt_eqb o z = true <-> o = Some z.
Proof.
  destruct o as [x|]; cbn [opt_eqb]; split; intros H; try discriminate.
  - apply Z.eqb_eq in H. now subst.
  - injection H as ->. apply Z.eqb_refl.
Qed.

Ltac served_items :=
  match goal with
  | |- context [get_page (new_Paginator ?l 10) ?number] =>
      let pg := fresh "pg" in
      let E := fresh "E" in
      let q := fresh "q" in
      let Hq := fresh "Hq" in
      destruct (get_page_serves l number) as (pg & E & _);
      rewrite E; exists (page_object_list pg); split; [reflexivity|];
      apply Forall_forall; intros q Hq;
      apply (In_served l number pg q E) in Hq
  end.

(** X11. Every post on a served page is a stored post that matches the
    query of its view: the group listing shows only posts of that
    group, the profile only posts of that author, and the follow feed
    only posts whose author the requesting user follows. *)
Theorem listings_show_matching_posts (db : DB) (request : Request) :
  (exists items,
      page_obj_items (fst (respond (index request) db)) = Some items
      /\ Forall (fun q => In q (posts db)) items)
  /\ (forall slug group,
        groups_by_slug db slug = [group] ->
        exists items,
          page_obj_items (fst (respond (group_posts request slug) db)) = Some items
          /\ Forall (fun q => In q (posts db)
                              /\ post_group q = Some (group_id group)) items)
  /\ (forall name author,
        users_by_username db name = [author] ->
        exists items,
          page_obj_items (fst (respond (profile request name) db)) = Some items
          /\ Forall (fun q => In q (posts db)
                              /\ post_author q = Some (user_id author)) items)
  /\ (forall user,
        req_user request = Some user ->
        exists items,
          page_obj_items (fst (respond (follow_index request) db)) = Some items
          /\ Forall (fun q => In q (posts db)
                              /\ exists f, In f (follows db)
                                           /\ follow_user f = user_id user
                                           /\ post_author q = Some (follow_author f))
                    items).
Proof.
  split; [|split; [|split]].
  - unfold index. run_view. served_items.
    unfold all_posts in Hq. apply (proj1 (In_ordered _ _)) in Hq. exact Hq.
  - intros slug group Hg. unfold group_posts. run_view.
    rewrite Hg. cbn [qs_get]. run_view. served_items.
    unfold posts_of_group in Hq.
    apply (proj1 (In_ordered _ _)), filter_In in Hq. destruct Hq as [Hq Hb].
    split; [exact Hq | now apply opt_eqb_true].
  - intros name author Ha. unfold profile. run_view.
    rewrite Ha. cbn [qs_get]. run_view. served_items.
    unfold posts_of_author in Hq.
    apply (proj1 (In_ordered _ _)), filter_In in Hq. destruct Hq as [Hq Hb].
    split; [exact Hq | now apply opt_eqb_true].
  - intros user Hu. unfold follow_index. run_view. rewrite Hu. served_items.
    apply In_posts_followed_by in Hq. destruct Hq as (Hq & f & Hf & Ha & Hfu).
    split; [exact Hq|]. exists f. repeat split; assumption.
Qed.

(** ** Following, unfollowing and what the other views then show *)

Lemma named_is_target (db : DB) (name : string) (target : User) (uid : Z)
    (f : Follow) :
  users_by_username db name = [target] ->
  follows_user_of_named db uid name f
  = (follow_user f =? uid) && (follow_author f =? user_id target).
Proof.
  intros Ht. unfold follows_user_of_named. f_equal.
  destruct (target_in_users db name target Ht) as [Hin Hname].
  destruct (Z.eqb_spec (follow_author f) (user_id target)) as [E|E].
  - apply existsb_exists. exists target. split; [exact Hin|].
    rewrite E, Z.eqb_refl. cbn [andb]. now apply String.eqb_eq.
  - destruct (existsb _ (users db)) eqn:Ex; [|reflexivity].
    apply existsb_exists in Ex. destruct Ex as (a & Ha & Hab).
    apply andb_true_iff in Hab. destruct Hab as [Hid Hnm].
    apply Z.eqb_eq in Hid.
    assert (a = target) as ->
      by (eapply in_singleton_filter; [exact Ht | exact Ha | exact Hnm]).
    now contradiction E.
Qed.

Lemma filter_twice {A} (f : A -> bool) (l : list A) :
  filter f (filter f l) = filter f l.
Proof.
  apply filter_id. intros x Hx. now apply filter_In in Hx.
Qed.

Lemma filter_none {A} (f : A -> bool) (l : list A) :
  filter f (filter (fun x => negb (f x)) l) = [].
Proof.
  induction l as [|a l IH]; [reflexivity|]. cbn [filter].
  destruct (f a) eqn:E; cbn [negb filter]; [exact IH|].
  now rewrite E.
Qed.

Lemma profile_unfollow_state (db : DB) (request : Request) (user : User)
    (name : string) :
  req_user request = Some user ->
  respond (profile_unfollow request name) db
  = (Redirect (posts_profile name),
     set_follows db
       (filter (fun f => negb (follows_user_of_named db (user_id user) name f))
               (follows db))
       (next_follow_id db)).
Proof.
  intros Hu. unfold profile_unfollow. run_view. now rewrite Hu.
Qed.

Lemma profile_unfollow_rows (db : DB) (request : Request) (user : User)
    (name : string) (target : User) :
  req_user request = Some user ->
  users_by_username db name = [target] ->
  follows (snd (respond (profile_unfollow request name) db))
  = filter (fun f => negb ((follow_user f =? user_id user)
                           && (follow_author f =? user_id target)))
           (follows db)
  /\ follows_of_pair (snd (respond (profile_unfollow request name) db))
                     (user_id user) (user_id target) = [].
Proof.
  intros Hu Ht.
  rewrite (profile_unfollow_state db request user name Hu). cbn [snd].
  assert (Hf : follows (set_follows db
                 (filter (fun f => negb (follows_user_of_named db (user_id user) name f))
                         (follows db)) (next_follow_id db))
               = filter (fun f => negb ((follow_user f =? user_id user)
                                        && (follow_author f =? user_id target)))
                        (follows db)).
  { cbn [follows set_follows]. apply filter_ext.
    intros f. now rewrite (named_is_target db name target (user_id user) f Ht). }
  split; [exact Hf|].
  unfold follows_of_pair. rewrite Hf. apply filter_none.
Qed.

(** X13. Unfollowing an existing user deletes every row in which the
    requester follows that user, also duplicate ones, and no other
    row; the requester then does not follow the user, and a second
    unfollow request changes nothing. *)
Theorem profile_unfollow_clears_pair (db : DB) (request : Request) (user : User)
    (name : string) (target : User) :
  req_user request = Some user ->
  users_by_username db name = [target] ->
  let out := respond (profile_unfollow request name) db in
  fst out = Redirect (posts_profile name)
  /\ follows_of_pair (snd out) (user_id user) (user_id target) = []
  /\ (forall f, In f (follows (snd out))
                <-> In f (follows db)
                    /\ ~ (follow_user f = user_id user
                          /\ follow_author f = user_id target))
  /\ respond (profile_unfollow request name) (snd out) = out.
Proof.
  intros Hu Ht out. subst out.
  destruct (profile_unfollow_rows db request user name target Hu Ht) as [Hf Hnone].
  split; [now rewrite (profile_unfollow_state db request user name Hu)|].
  split; [exact Hnone|]. split.
  - intros f. rewrite Hf, filter_In, negb_true_iff, andb_false_iff,
      !Z.eqb_neq.
    split; intros [H1 H2]; (split; [exact H1|]).
    + intros [A B]. destruct H2; contradiction.
    + destruct (Z.eq_dec (follow_user f) (user_id user)) as [A|A];
        [right; intros B; apply H2; now split | now left].
  - rewrite (profile_unfollow_state db request user name Hu). cbn [snd].
    set (db' := set_follows db _ _).
    rewrite (profile_unfollow_state db' request user name Hu). f_equal.
    assert (E : filter (fun f => negb (follows_user_of_named db' (user_id user) name f))
                       (follows db') = follows db').
    { subst db'. cbn [follows set_follows].
      unfold follows_user_of_named. cbn [users set_follows].
      apply filter_twice. }
    rewrite E. apply set_follows_same.
Qed.

Lemma profile_follow_then_following (db : DB) (request : Request) (user : User)
    (name : string) (target : User) :
  req_user request = Some user ->
  users_by_username db name = [target] ->
  user_id user <> user_id target ->
  let db1 := snd (respond (profile_follow request name) db) in
  users db1 = users db /\ posts db1 = posts db
  /\ exists f, In f (follows db1)
               /\ follow_user f = user_id user
               /\ follow_author f = user_id target.
Proof.
  intros Hu Ht Hne db1. subst db1.
  unfold profile_follow. run_view. rewrite Hu, Ht. cbn [qs_get]. run_view.
  cbn [user_ne andb].
  destruct (Z.eqb_spec (user_id user) (user_id target)) as [E|_];
    [contradiction|]. cbn [negb andb].
  unfold follow_get_or_create.
  destruct (follows_of_pair db (user_id user) (user_id target))
    as [|f rest] eqn:Ef.
  - cbn [qs_get snd users posts follows set_follows].
    split; [reflexivity|]. split; [reflexivity|].
    eexists. split; [apply in_or_app; right; left; reflexivity|].
    split; reflexivity.
  - assert (Hf : In f (follows_of_pair db (user_id user) (user_id target)))
      by (rewrite Ef; now left).
    apply filter_In in Hf. destruct Hf as [Hin Hb].
    apply andb_true_iff in Hb. destruct Hb as [H1 H2].
    apply Z.eqb_eq in H1, H2.
    destruct rest; cbn [qs_get snd];
      (split; [reflexivity|]; split; [reflexivity|];
       exists f; repeat split; assumption).
Qed.

(** X12. Once a user has asked to follow an author (somebody else),
    every post of that author is in the query of the user's follow
    feed; once the user has asked to unfollow, none of them is. *)
Theorem feed_follows_the_follow (db : DB) (request : Request) (user : User)
    (name : string) (target : User) (q : Post) :
  req_user request = Some user ->
  users_by_username db name = [target] ->
  user_id user <> user_id target ->
  In q (posts db) ->
  post_author q = Some (user_id target) ->
  let db1 := snd (respond (profile_follow request name) db) in
  let db2 := snd (respond (profile_unfollow request name) db1) in
  In q (posts_followed_by db1 user) /\ ~ In q (posts_followed_by db2 user).
Proof.
  intros Hu Ht Hne Hq Ha db1 db2.
  destruct (profile_follow_then_following db request user name target Hu Ht Hne)
    as (Husers & Hposts & f & Hf & Hfu & Hfa).
  fold db1 in Husers, Hposts, Hf.
  assert (Ht1 : users_by_username db1 name = [target])
    by (unfold users_by_username in *; now rewrite Husers).
  split.
  - apply In_posts_followed_by. rewrite Hposts. split; [exact Hq|].
    exists f. rewrite Hfa. repeat split; assumption.
  - intros Hin. apply In_posts_followed_by in Hin.
    destruct Hin as (_ & g & Hg & Hga & Hgu).
    destruct (profile_unfollow_rows db1 request user name target Hu Ht1)
      as (_ & Hnone).
    fold db2 in Hnone.
    assert (In g (follows_of_pair db2 (user_id user) (user_id target))) as Hpair.
    { apply filter_In. split; [exact Hg|].
      rewrite Ha in Hga. injection Hga as Hga.
      rewrite Hgu, <- Hga, !Z.eqb_refl. reflexivity. }
    rewrite Hnone in Hpair. destruct Hpair.
Qed.

(** X14. The profile page tells whether the visitor follows the
    author: after the follow request its [following] entry holds a
    row, after the unfollow request it is empty. *)
Theorem profile_shows_following (db : DB) (request : Request) (user : User)
    (name : string) (target : User) :
  req_user request = Some user ->
  users_by_username db name = [target] ->
  user_id user <> user_id target ->
  let db1 := snd (respond (profile_follow request name) db) in
  let db2 := snd (respond (profile_unfollow request name) db1) in
  (exists fs,
      ctx_get "following" (context_of (fst (respond (profile request name) db1)))
      = Some (VFollows fs) /\ fs <> [])
  /\ ctx_get "following" (context_of (fst (respond (profile request name) db2)))
     = Some (VFollows []).
Proof.
  intros Hu Ht Hne db1 db2.
  destruct (profile_follow_then_following db request user name target Hu Ht Hne)
    as (Husers & _ & f & Hf & Hfu & Hfa).
  fold db1 in Husers, Hf.
  assert (Ht1 : users_by_username db1 name = [target])
    by (unfold users_by_username in *; now rewrite Husers).
  destruct (profile_unfollow_rows db1 request user name target Hu Ht1)
    as (_ & Hnone).
  fold db2 in Hnone.
  assert (Ht2 : users_by_username db2 name = [target]).
  { subst db2. rewrite (profile_unfollow_state db1 request user name Hu).
    exact Ht1. }
  assert (P : forall d, users_by_username d name = [target] ->
            ctx_get "following" (context_of (fst (respond (profile request name) d)))
            = Some (VFollows (follows_of_pair d (user_id user) (user_id target)))).
  { intros d Hd. unfold profile. run_view. rewrite Hd, Hu. cbn [qs_get]. run_view.
    destruct (get_page_serves (posts_of_author d target) (req_page request))
      as (pg & E & _).
    rewrite E. reflexivity. }
  split.
  - exists (follows_of_pair db1 (user_id user) (user_id target)).
    split; [exact (P db1 Ht1)|].
    intros Hnil.
    assert (In f (follows_of_pair db1 (user_id user) (user_id target))) as Hin.
    { apply filter_In. split; [exact Hf|].
      rewrite Hfu, Hfa, !Z.eqb_refl. reflexivity. }
    rewrite Hnil in Hin. destruct Hin.
  - rewrite (P db2 Ht2), Hnone. reflexivity.
Qed.

(** ** Writing, then reading *)

Section Write_then_read.

Context {F : Forms}.

(** X15. After a valid comment on an existing post, the detail page of
    that post shows, in some order, the comments the post had and the
    new one, which has the cleaned text, the requesting user as author
    and that post; the comments of every other post are the same as
    before. *)
Theorem comment_appears_on_detail (db : DB) (request request' : Request)
    (user : User) (pid : Z) (post : Post) :
  req_user request = Some user ->
  posts_by_id db pid = [post] ->
  cf_is_valid (new_CommentForm (or_None (req_POST request))) = true ->
  let db1 := snd (respond (add_comment request pid) db) in
  exists comment shown,
    respond (post_detail request' pid) db1
    = (Render "posts/post_detail.html"
              [("one_post", VPost post);
               ("form", VCommentForm (new_CommentForm (or_None (req_POST request'))));
               ("comment", VComments shown)],
       db1)
    /\ Permutation shown
                   (comment :: filter (fun c => opt_eqb (comment_post c) pid)
                                      (comments db))
    /\ comment_text comment = snd (comment_form_clean (req_POST request))
    /\ comment_author comment = Some (user_id user)
    /\ comment_post comment = Some pid
    /\ forall pid', pid' <> pid ->
         Permutation (filter (fun c => opt_eqb (comment_post c) pid') (comments db1))
                     (filter (fun c => opt_eqb (comment_post c) pid') (comments db)).
Proof.
  intros Hu Hpost Hv db1.
  pose proof (post_id_of_filter db pid post Hpost) as Hid.
  assert (Hd : or_None (req_POST request) = Some (req_POST request)).
  { unfold cf_is_valid, cf_is_bound in Hv. cbn [new_CommentForm cf_data] in Hv.
    destruct (req_POST request); [discriminate|reflexivity]. }
  set (comment := mkComment (Some (next_comment_id db)) (Some pid)
                            (Some (user_id user))
                            (snd (comment_form_clean (req_POST request))) (now db)).
  assert (E : db1 = set_comments db (comments db ++ [comment])
                                 (next_comment_id db + 1)).
  { subst db1. unfold add_comment. run_view. rewrite Hu, Hpost. cbn [qs_get].
    run_view. rewrite Hv. unfold save_comment.
    cbn [comment_post comment_author comment_id cf_cleaned_instance
         new_CommentForm cf_instance blank_Comment comment_text cf_data].
    rewrite Hid, Hd. reflexivity. }
  exists comment.
  exists (filter (fun c => opt_eqb (comment_post c) pid) (comments db) ++ [comment]).
  rewrite E.
  split; [|split; [|split; [reflexivity|split; [reflexivity|split; [reflexivity|]]]]].
  - unfold post_detail. run_view. unfold posts_by_id in *.
    cbn [posts set_comments comments]. rewrite Hpost. cbn [qs_get]. run_view.
    cbn [posts set_comments comments]. rewrite filter_app.
    cbn [filter comment comment_post opt_eqb]. rewrite Z.eqb_refl. reflexivity.
  - apply Permutation_sym, Permutation_cons_append.
  - intros pid' Hne. cbn [comments set_comments]. rewrite filter_app.
    cbn [filter comment comment_post opt_eqb].
    destruct (Z.eqb_spec pid pid'); [now subst|].
    rewrite app_nil_r. apply Permutation_refl.
Qed.

Lemma post_create_state (db : DB) (request : Request) (user : User) :
  req_user request = Some user ->
  let form := new_PostForm (or_None (req_POST request))
                           (or_None (req_FILES request)) None in
  pf_is_valid db form = true ->
  let c := pf_cleaned_data db form in
  let post := mkPost (Some (next_post_id db)) (cleaned_text c) (now db)
                     (Some (user_id user)) (cleaned_group c)
                     (stored_image db (save_form_data None (cleaned_image c))) in
  respond (post_create request) db
  = (Redirect (posts_profile (username user)),
     set_posts db (posts db ++ [post]) (next_post_id db + 1)).
Proof.
  intros Hu form Hv c post.
  unfold post_create. run_view. rewrite Hu. fold form. rewrite Hv.
  reflexivity.
Qed.

(** X16. After a valid creation the view redirects to the profile of
    the requesting user, and that profile page counts one post more
    than before. *)
Theorem created_post_counts_on_profile (db : DB) (request request' : Request)
    (user : User) :
  req_user request = Some user ->
  users_by_username db (username user) = [user] ->
  pf_is_valid db (new_PostForm (or_None (req_POST request))
                               (or_None (req_FILES request)) None) = true ->
  let out := respond (post_create request) db in
  fst out = Redirect (posts_profile (username user))
  /\ ctx_get "count"
             (context_of (fst (respond (profile request' (username user)) (snd out))))
     = Some (VCount (Z.of_nat (length (filter (authored_by (user_id user))
                                              (posts db))) + 1)).
Proof.
  intros Hu Hrow Hv out. subst out.
  rewrite (post_create_state db request user Hu Hv). cbn [fst snd].
  split; [reflexivity|].
  unfold profile. run_view. unfold users_by_username in *.
  cbn [users set_posts]. rewrite Hrow. cbn [qs_get]. run_view.
  match goal with
  | |- context [get_page (new_Paginator ?l 10) ?n] =>
      destruct (get_page_serves l n) as (pg & E & _); rewrite E
  end.
  cbn [fst context_of ctx_get String.eqb Ascii.eqb Bool.eqb].
  unfold posts_of_author. rewrite !length_ordered.
  cbn [posts set_posts]. rewrite filter_app, length_app.
  cbn [filter post_author opt_eqb]. rewrite Z.eqb_refl. cbn [length].
  unfold authored_by. do 2 f_equal. lia.
Qed.

(** X17. When the next key of the sequence is not taken, the post a
    valid creation stores is the one the detail page then shows under
    that key, with the requesting user as author, the cleaned text and
    group, and the time of the request. *)
Theorem created_post_on_detail (db : DB) (request request' : Request)
    (user : User) :
  req_user request = Some user ->
  let form := new_PostForm (or_None (req_POST request))
                           (or_None (req_FILES request)) None in
  pf_is_valid db form = true ->
  posts_by_id db (next_post_id db) = [] ->
  let db1 := snd (respond (post_create request) db) in
  exists post context,
    respond (post_detail request' (next_post_id db)) db1
    = (Render "posts/post_detail.html" (("one_post", VPost post) :: context), db1)
    /\ post_author post = Some (user_id user)
    /\ post_text post = cleaned_text (pf_cleaned_data db form)
    /\ post_group post = cleaned_group (pf_cleaned_data db form)
    /\ post_pub_date post = now db.
Proof.
  intros Hu form Hv Hfree db1. subst db1.
  rewrite (post_create_state db request user Hu Hv). cbn [snd].
  eexists _, _. split.
  - unfold post_detail. run_view. unfold posts_by_id in *.
    cbn [posts set_posts]. rewrite filter_app, Hfree.
    cbn [filter post_id opt_eqb app]. rewrite Z.eqb_refl. cbn [qs_get].
    run_view. reflexivity.
  - repeat split.
Qed.

End Write_then_read.

(** ** Following twice *)

(** X18. Asking twice to follow an existing user is the same as asking
    once: in a table with at most one row for the pair, the second
    request leaves the database exactly as the first one left it. *)
Theorem profile_follow_idempotent (db : DB) (request : Request) (user : User)
    (name : string) (target : User) :
  req_user request = Some user ->
  users_by_username db name = [target] ->
  (length (follows_of_pair db (user_id user) (user_id target)) <= 1)%nat ->
  let out1 := respond (profile_follow request name) db in
  respond (profile_follow request name) (snd out1) = out1.
Proof.
  intros Hu Ht Hc out1. subst out1.
  destruct (profile_follow_step db request user name target Hu Ht Hc)
    as (db1 & E1 & Husers & Hc1 & Hself & Hhas & Hnew).
  rewrite E1. cbn [snd].
  assert (Ht1 : users_by_username db1 name = [target])
    by (unfold users_by_username in *; now rewrite Husers).
  destruct (profile_follow_step db1 request user name target Hu Ht1 Hc1)
    as (db2 & E2 & _ & _ & Hself2 & Hhas2 & _).
  rewrite E2. f_equal.
  destruct (Z.eq_dec (user_id user) (user_id target)) as [E|E];
    [now apply Hself2|].
  apply Hhas2.
  destruct (follows_of_pair db (user_id user) (user_id target)) as [|f l] eqn:Ef.
  - unfold follows_of_pair. rewrite (Hnew E eq_refl), filter_app.
    cbn [filter follow_user follow_author]. rewrite !Z.eqb_refl. cbn [andb].
    intros H. apply app_eq_nil in H. destruct H as [_ H]. discriminate.
  - rewrite (Hhas ltac:(discriminate)), Ef. discriminate.
Qed.

(** ** The keys of the posts *)

Lemma keyed_lookup (l : list Post) (pid : Z) :
  NoDup (map post_id l) ->
  (length (filter (fun q => opt_eqb (post_id q) pid) l) <= 1)%nat.
Proof.
  induction l as [|q l IH]; intros Hnd; cbn [filter map length] in *;
    [lia|].
  inversion Hnd as [|x xs Hnotin Hnd']; subst.
  destruct (opt_eqb (post_id q) pid) eqn:E; [|now apply IH].
  apply opt_eqb_true in E.
  replace (filter _ l) with (@nil Post); [cbn; lia|].
  symmetry. destruct (filter _ l) as [|r rs] eqn:Er; [reflexivity|].
  exfalso. apply Hnotin.
  assert (In r (filter (fun q0 => opt_eqb (post_id q0) pid) l)) as Hr
    by (rewrite Er; now left).
  apply filter_In in Hr. destruct Hr as [Hr Hb]. apply opt_eqb_true in Hb.
  rewrite E, <- Hb. now apply in_map.
Qed.

Lemma map_post_id_replace (i : Z) (p : Post) (l : list Post) :
  post_id p = Some i ->
  map post_id (replace_post i p l) = map post_id l.
Proof.
  intros Hp. induction l as [|q l IH]; [reflexivity|].
  cbn [replace_post map]. fold (replace_post i p l). rewrite IH. f_equal.
  destruct (opt_eqb (post_id q) i) eqn:E; [|reflexivity].
  apply opt_eqb_true in E. congruence.
Qed.

Lemma posts_keyed_same (db db' : DB) :
  posts db' = posts db -> next_post_id db' = next_post_id db ->
  posts_keyed db -> posts_keyed db'.
Proof.
  intros E1 E2 [H1 H2]. unfold posts_keyed. rewrite E1, E2. now split.
Qed.

Lemma posts_keyed_append (db : DB) (p : Post) (t : Z) :
  posts_keyed db ->
  posts_keyed (set_posts db (posts db ++ [stamp_post p (next_post_id db) t])
                         (next_post_id db + 1)).
Proof.
  intros [H1 H2]. split; cbn [posts set_posts next_post_id].
  - rewrite map_app. cbn [map stamp_post post_id].
    apply NoDup_app; [exact H1 | repeat constructor; intros [] |].
    intros k Hk [<-|[]]. apply in_map_iff in Hk. destruct Hk as (q & Hq & Hin).
    destruct (H2 q Hin) as (i & Hi & Hlt). rewrite Hi in Hq.
    injection Hq as Hq. lia.
  - intros q Hq. apply in_app_or in Hq. destruct Hq as [Hq|[<-|[]]].
    + destruct (H2 q Hq) as (i & Hi & Hlt). exists i. split; [exact Hi|lia].
    + exists (next_post_id db). split; [reflexivity|lia].
Qed.

Lemma save_cases_next (c : Comment) (db : DB) :
  next_post_id (snd (save_comment c db)) = next_post_id db.
Proof.
  unfold save_comment.
  repeat match goal with
         | |- context [match ?x with _ => _ end] => destruct x
         end; reflexivity.
Qed.

Section Keys.

Context {F : Forms}.

Lemma step_posts_keyed (u : Url) (request : Request) (db : DB) :
  posts_keyed db -> posts_keyed (snd (respond (resolve u request) db)).
Proof.
  intros H.
  assert (K : forall v, keeps posts v -> keeps next_post_id v ->
            posts_keyed (snd (respond v db))).
  { intros v H1 H2. eapply posts_keyed_same; [| |exact H].
    - apply (respond_keeps posts v db H1).
    - apply (respond_keeps next_post_id v db H2). }
  assert (Kc : forall c, keeps next_post_id (save_comment c))
    by (intros c d; apply save_cases_next).
  assert (Kf : forall a b, keeps next_post_id (follow_get_or_create a b))
    by (intros a b; save_cases).
  assert (Kd : forall a n, keeps next_post_id (delete_follows a n))
    by (intros a n; save_cases).
  destruct u; cbn [resolve];
    try solve [apply K;
         unfold index, group_posts, profile, post_detail, add_comment,
           follow_index, profile_follow, profile_unfollow; frame; auto].
  - unfold post_create, login_required.
    destruct (req_user request) as [user|]; [|exact H].
    run_view. destruct (pf_is_valid db _); [|exact H].
    unfold save_post, write_post.
    cbn [pre_save_image with_image with_author post_author post_id
         pf_cleaned_instance
                           construct_instance new_PostForm pf_instance
                           from_option blank_Post snd].
    match goal with
    | |- posts_keyed (set_posts db (posts db ++ [stamp_post ?p _ ?t]) _) =>
        apply (posts_keyed_append db p t H)
    end.
  - unfold post_edit, login_required.
    destruct (req_user request) as [user|]; [|exact H].
    run_view.
    destruct (qs_get (posts_by_id db pid)) as [post|[]] eqn:Eq; split_range;
      try exact H.
    unfold lift. cbn beta iota.
    destruct (opt_eqb (post_author post) (user_id user)); [|exact H].
    destruct (pf_is_valid db _); [|exact H].
    assert (Hpost : posts_by_id db pid = [post]).
    { unfold qs_get in Eq. destruct (posts_by_id db pid) as [|x [|y r]];
        [discriminate | now injection Eq as -> | discriminate]. }
    pose proof (post_id_of_filter db pid post Hpost) as Hid.
    unfold save_post, write_post.
    cbn [pre_save_image with_image post_author post_id pf_cleaned_instance
         construct_instance
         new_PostForm pf_instance from_option].
    destruct (post_author post); [|exact H].
    rewrite Hid. unfold posts_by_id in Hpost.
    rewrite (existsb_of_filter _ _ _ Hpost). cbn [snd].
    destruct H as [H1 H2]. split; cbn [posts set_posts next_post_id].
    + rewrite map_post_id_replace by exact Hid. exact H1.
    + intros q Hq. unfold replace_post in Hq. apply in_map_iff in Hq.
      destruct Hq as (r & Hr & Hin).
      destruct (opt_eqb (post_id r) pid) eqn:E; [|subst; now apply H2].
      subst q. apply opt_eqb_true in E.
      destruct (H2 r Hin) as (i & Hi & Hlt). exists pid.
      split; [exact Hid|]. rewrite E in Hi. injection Hi as <-. exact Hlt.
Qed.

(** X20. The views keep the keys of the posts in order: when the
    stored posts have pairwise different keys below the next key of
    the sequence, this is so after any run of requests; a key then
    names at most one post, and the next key names none. *)
Theorem serve_all_posts_keyed (rs : list (Url * Request)) (db : DB) :
  posts_keyed db ->
  posts_keyed (serve_all rs db)
  /\ (forall pid, (length (posts_by_id (serve_all rs db) pid) <= 1)%nat)
  /\ posts_by_id (serve_all rs db) (next_post_id (serve_all rs db)) = [].
Proof.
  intros H.
  assert (G : posts_keyed (serve_all rs db)).
  { revert db H. induction rs as [|[u request] rs IH]; intros db H; [exact H|].
    cbn [serve_all]. apply IH. now apply step_posts_keyed. }
  split; [exact G|]. destruct G as [G1 G2]. split.
  - intros pid. now apply keyed_lookup.
  - unfold posts_by_id.
    destruct (filter _ _) as [|q l] eqn:E; [reflexivity|]. exfalso.
    assert (In q (filter (fun p => opt_eqb (post_id p)
                                           (next_post_id (serve_all rs db)))
                         (posts (serve_all rs db)))) as Hq
      by (rewrite E; now left).
    apply filter_In in Hq. destruct Hq as [Hq Hb]. apply opt_eqb_true in Hb.
    destruct (G2 q Hq) as (i & Hi & Hlt). rewrite Hi in Hb.
    injection Hb as Hb. lia.
Qed.

End Keys.

(** * The further properties at the fixtures of the test suite *)

Lemma anonymous_never_writes_witness :
  snd (respond (resolve (F := spec_forms) url_post_create anonymous_request) view_db)
  = view_db
  /\ respond (add_comment (F := spec_forms) anonymous_request 1) view_db
     = (Redirect login, view_db).
Proof.
  destruct (anonymous_never_writes (F := spec_forms) view_db anonymous_request
              eq_refl) as (H1 & _ & _ & H4 & _).
  split; [exact (H1 url_post_create) | exact (H4 1)].
Defined.

Lemma unknown_objects_not_found_witness :
  respond (group_posts (get_request test_user None) "no-such-slug") view_db
  = (NotFound, view_db)
  /\ respond (profile (get_request test_user None) "nobody") view_db
     = (NotFound, view_db)
  /\ respond (post_detail (get_request test_user None) 7) view_db
     = (NotFound, view_db)
  /\ respond (add_comment (F := spec_forms) comment_request 7) view_db
     = (NotFound, view_db)
  /\ respond (post_detail (get_request test_user None) 9223372036854775808) view_db
     = (ServerError OverflowError, view_db)
  /\ respond (add_comment (F := spec_forms) comment_request 9223372036854775808)
             view_db
     = (ServerError OverflowError, view_db).
Proof.
  destruct (unknown_objects_not_found (F := spec_forms) view_db comment_request)
    as (_ & _ & H3 & H4).
  destruct (unknown_objects_not_found (F := spec_forms) view_db
              (get_request test_user None)) as (H1 & H2 & H3' & H4').
  assert (R7 : - 2 ^ 63 <= 7 < 2 ^ 63) by lia.
  assert (R : 9223372036854775808 < - 2 ^ 63 \/ 2 ^ 63 <= 9223372036854775808)
    by lia.
  split; [exact (H1 "no-such-slug" eq_refl)|].
  split; [exact (H2 "nobody" eq_refl)|].
  split; [exact (proj1 (H3' 7 eq_refl R7))|].
  split; [exact (proj2 (proj2 (H3 7 eq_refl R7) test_user eq_refl))|].
  split; [exact (proj1 (H4' 9223372036854775808 eq_refl R))|].
  exact (proj2 (proj2 (H4 9223372036854775808 eq_refl R) test_user eq_refl)).
Defined.

Lemma listing_always_renders_witness :
  let request := get_request test_user (Some 99) in
  serves_a_page (respond (index request) paginator_db) paginator_db
  /\ serves_a_page (respond (group_posts request "test-slug") paginator_db)
                   paginator_db
  /\ serves_a_page (respond (profile request "author") paginator_db) paginator_db
  /\ serves_a_page (respond (follow_index request) paginator_db) paginator_db.
Proof.
  intros request.
  destruct (listing_always_renders paginator_db request) as (H1 & H2 & H3 & H4).
  split; [exact H1|].
  split; [exact (H2 "test-slug" test_group eq_refl)|].
  split; [exact (H3 "author" author_user eq_refl)|].
  exact (H4 test_user eq_refl).
Defined.

Lemma index_page_fallback_witness :
  exists pg,
    respond (index (get_request test_user (Some 99))) paginator_db
    = (Render "posts/index.html" [("page_obj", VPage pg)], paginator_db)
    /\ page_number pg = 2.
Proof.
  destruct (index_page_fallback paginator_db (get_request test_user (Some 99)))
    as (pg & E & _ & H).
  exists pg. split; [exact E|].
  exact (proj2 (H 99 eq_refl) (or_intror eq_refl)).
Defined.

Lemma posts_only_touched_by_author_witness :
  filter (authored_by 2) (posts (serve_all (F := spec_forms) author_run view_db))
  = filter (authored_by 2) (posts view_db).
Proof.
  apply (posts_only_touched_by_author (F := spec_forms) author_run view_db 2).
  repeat constructor; discriminate.
Defined.

Lemma serve_all_follows_unique_witness :
  follows_unique (serve_all (F := spec_forms) author_run view_db).
Proof.
  apply (serve_all_follows_unique (F := spec_forms) author_run view_db).
  intros user author. apply le_S, le_n.
Defined.

Lemma serve_all_no_self_follow_witness :
  no_self_follow (serve_all (F := spec_forms) author_run view_db).
Proof.
  apply (serve_all_no_self_follow (F := spec_forms) author_run view_db).
  intros f [].
Defined.

Lemma listings_show_matching_posts_witness :
  let request := get_request test_user (Some 2) in
  (exists items,
      page_obj_items (fst (respond (group_posts request "test-slug") paginator_db))
      = Some items
      /\ Forall (fun q => In q (posts paginator_db) /\ post_group q = Some 1) items)
  /\ (exists items,
        page_obj_items (fst (respond (follow_index request) paginator_db))
        = Some items
        /\ Forall (fun q => In q (posts paginator_db)
                            /\ exists f, In f (follows paginator_db)
                                         /\ follow_user f = 2
                                         /\ post_author q = Some (follow_author f))
                  items).
Proof.
  intros request.
  destruct (listings_show_matching_posts paginator_db request)
    as (_ & H2 & _ & H4).
  split; [exact (H2 "test-slug" test_group eq_refl) | exact (H4 test_user eq_refl)].
Defined.

Lemma feed_follows_the_follow_witness :
  let request := get_request author_user None in
  let q := mkPost (Some 1) "old text" 5 (Some 2) (Some 1) (Some "posts/small.gif") in
  let db1 := snd (respond (profile_follow request "test_user") view_db) in
  let db2 := snd (respond (profile_unfollow request "test_user") db1) in
  In q (posts_followed_by db1 author_user)
  /\ ~ In q (posts_followed_by db2 author_user).
Proof.
  intros request q.
  apply (feed_follows_the_follow view_db request author_user "test_user"
           test_user q eq_refl eq_refl);
    [discriminate | now left | reflexivity].
Defined.

Lemma profile_unfollow_clears_pair_witness :
  let request := get_request test_user None in
  let out := respond (profile_unfollow request "author") paginator_db in
  follows_of_pair (snd out) 2 1 = []
  /\ respond (profile_unfollow request "author") (snd out) = out.
Proof.
  intros request out.
  destruct (profile_unfollow_clears_pair paginator_db request test_user "author"
              author_user eq_refl eq_refl) as (_ & H2 & _ & H4).
  split; [exact H2 | exact H4].
Defined.

Lemma profile_shows_following_witness :
  let request := get_request test_user None in
  let db1 := snd (respond (profile_follow request "author") view_db) in
  let db2 := snd (respond (profile_unfollow request "author") db1) in
  (exists fs,
      ctx_get "following" (context_of (fst (respond (profile request "author") db1)))
      = Some (VFollows fs) /\ fs <> [])
  /\ ctx_get "following" (context_of (fst (respond (profile request "author") db2)))
     = Some (VFollows []).
Proof.
  intros request.
  apply (profile_shows_following view_db request test_user "author" author_user
           eq_refl eq_refl).
  discriminate.
Defined.

Lemma comment_appears_on_detail_witness :
  let db1 := snd (respond (add_comment (F := spec_forms) comment_request 1) view_db) in
  exists comment,
    ctx_get "comment"
            (context_of (fst (respond (post_detail (get_request author_user None) 1)
                                      db1)))
    = Some (VComments [comment])
    /\ comment_text comment = "test comment"
    /\ comment_author comment = Some 2.
Proof.
  intros db1.
  destruct (comment_appears_on_detail (F := spec_forms) view_db comment_request
              (get_request author_user None) test_user 1 _ eq_refl eq_refl eq_refl)
    as (c & shown & E & P & Ht & Ha & _).
  exists c. fold db1 in E. rewrite E.
  apply Permutation_sym, Permutation_length_1_inv in P. rewrite P.
  repeat split; assumption.
Defined.

Lemma created_post_counts_on_profile_witness :
  let out := respond (post_create (F := spec_forms) valid_create_request) view_db in
  fst out = Redirect (posts_profile "test_user")
  /\ ctx_get "count"
             (context_of (fst (respond (profile (get_request author_user None)
                                                "test_user") (snd out))))
     = Some (VCount 2).
Proof.
  exact (created_post_counts_on_profile (F := spec_forms) view_db
           valid_create_request (get_request author_user None) test_user
           eq_refl eq_refl eq_refl).
Defined.

Lemma created_post_on_detail_witness :
  let db1 := snd (respond (post_create (F := spec_forms) valid_create_request)
                          view_db) in
  exists post context,
    respond (post_detail (get_request author_user None) 2) db1
    = (Render "posts/post_detail.html" (("one_post", VPost post) :: context), db1)
    /\ post_author post = Some 2
    /\ post_text post = "Test text".
Proof.
  intros db1.
  destruct (created_post_on_detail (F := spec_forms) view_db valid_create_request
              (get_request author_user None) test_user eq_refl eq_refl eq_refl)
    as (post & context & E & Ha & Ht & _).
  exists post, context. repeat split; assumption.
Defined.

Lemma profile_follow_idempotent_witness :
  let request := get_request test_user None in
  let out1 := respond (profile_follow request "author") view_db in
  respond (profile_follow request "author") (snd out1) = out1
  /\ length (follows (snd out1)) = 1%nat.
Proof.
  intros request out1. split; [|reflexivity].
  apply (profile_follow_idempotent view_db request test_user "author" author_user
           eq_refl eq_refl).
  apply le_S, le_n.
Defined.

Lemma post_edit_invalid_keeps_errors_witness :
  let form := new_PostForm (Some [("text", "")]) None
                (Some (mkPost (Some 1) "old text" 5 (Some 2) (Some 1)
                              (Some "posts/small.gif"))) in
  respond (post_edit (F := spec_forms) invalid_edit_request 1) view_db
  = (Render "posts/create_post.html"
            [("is_edit", VBool true); ("form", VPostForm form)], view_db)
  /\ pf_errors (F := spec_forms) view_db form
     = [("text", ["This field is required."])].
Proof.
  intros form. split; [|reflexivity].
  exact (post_edit_invalid_keeps_errors (F := spec_forms) view_db
           invalid_edit_request test_user 1 _ eq_refl eq_refl eq_refl eq_refl).
Defined.

Lemma serve_all_posts_keyed_witness :
  (forall pid, (length (posts_by_id (serve_all (F := spec_forms) author_run view_db)
                                    pid) <= 1)%nat)
  /\ posts_by_id (serve_all (F := spec_forms) author_run view_db) 3 = [].
Proof.
  destruct (serve_all_posts_keyed (F := spec_forms) author_run view_db)
    as (_ & H2 & H3).
  - split.
    + repeat constructor. intros [].
    + intros q [<-|[]]. exists 1. split; reflexivity.
  - split; [exact H2 | exact H3].
Defined.

(** * The images of the stored posts *)

Lemma stored_image_is_stored {F : Forms} (db : DB) (image : option FieldFile)
    (name : string) :
  stored_image db image <> Some (UploadedFile name).
Proof. destruct image as [[path|n]|]; discriminate. Qed.

Lemma images_stored_same (db db' : DB) :
  posts db' = posts db -> images_stored db -> images_stored db'.
Proof. intros E H q name. rewrite E. apply H. Qed.

Section Images.

Context {F : Forms}.

Lemma write_post_images_stored (p : Post) (db : DB) :
  images_stored db ->
  images_stored (snd (write_post (pre_save_image db p) db)).
Proof.
  intros H.
  assert (S1 : forall name, post_image (pre_save_image db p)
                            <> Some (UploadedFile name))
    by (intros name; apply stored_image_is_stored).
  assert (S2 : forall i t name,
             post_image (stamp_post (pre_save_image db p) i t)
             <> Some (UploadedFile name))
    by (intros i t name; apply stored_image_is_stored).
  assert (A : forall x, (forall name, post_image x <> Some (UploadedFile name)) ->
            forall q name, In q (posts db ++ [x]) ->
                           post_image q <> Some (UploadedFile name)).
  { intros x Hx q name Hq. apply in_app_or in Hq.
    destruct Hq as [Hq|[<-|[]]]; [now apply H | apply Hx]. }
  unfold write_post.
  destruct (post_author _); [|exact H].
  destruct (post_id _) as [i|]; [destruct (existsb _ _)|];
    cbn [snd]; intros q name; cbn [posts set_posts].
  - unfold replace_post. intros Hq. apply in_map_iff in Hq.
    destruct Hq as (r & Hr & Hin).
    destruct (opt_eqb (post_id r) i); subst q; [apply S1 | now apply H].
  - apply A, S2.
  - apply A, S2.
Qed.

Lemma step_images_stored (u : Url) (request : Request) (db : DB) :
  images_stored db -> images_stored (snd (respond (resolve u request) db)).
Proof.
  intros H.
  assert (K : forall v, keeps posts v -> images_stored (snd (respond v db))).
  { intros v Hv. eapply images_stored_same; [|exact H].
    apply (respond_keeps posts v db Hv). }
  destruct u; cbn [resolve];
    try solve [apply K;
         unfold index, group_posts, profile, post_detail, add_comment,
           follow_index, profile_follow, profile_unfollow; frame].
  - unfold post_create, login_required.
    destruct (req_user request) as [user|]; [|exact H].
    run_view. destruct (pf_is_valid db _); [|exact H].
    unfold save_post.
    pose proof (write_post_images_stored
                  (with_author (pf_cleaned_instance db
                     (new_PostForm (or_None (req_POST request))
                                   (or_None (req_FILES request)) None))
                     (Some (user_id user))) db H) as W.
    destruct (write_post _ db) as [[r|[]] db']; exact W.
  - unfold post_edit, login_required.
    destruct (req_user request) as [user|]; [|exact H].
    run_view.
    destruct (qs_get (posts_by_id db pid)) as [post|[]]; split_range;
      try exact H.
    unfold lift. cbn beta iota.
    destruct (opt_eqb (post_author post) (user_id user)); [|exact H].
    destruct (pf_is_valid db _); [|exact H].
    unfold save_post.
    pose proof (write_post_images_stored
                  (pf_cleaned_instance db
                     (new_PostForm (or_None (req_POST request))
                                   (or_None (req_FILES request)) (Some post)))
                  db H) as W.
    destruct (write_post _ db) as [[r|[]] db']; exact W.
Qed.

(** Every row the views write holds a stored image: when the images of
    the stored posts are files of the storage, they are after any run
    of requests. *)
Lemma serve_all_images_stored (rs : list (Url * Request)) (db : DB) :
  images_stored db -> images_stored (serve_all rs db).
Proof.
  revert db. induction rs as [|[u request] rs IH]; intros db H; [exact H|].
  cbn [serve_all]. apply IH. now apply step_images_stored.
Qed.

End Images.
